(** * Nexus AI orchestrator: the orchestration core, embedded and verified

    A shallow embedding of the routing core of the orchestrator:
    - [state/normalize.py]      the invariant normalizer,
    - [llm/router.py]           the quota-aware model router,
    - [agents/intent_router.py] the intent classifier,
    - [config/tenant_config.py] the tenant policy,
    - [agents/sql_agent.py], [agents/code_agent.py]  two handlers,
    - [storage/sqlite_store.py] the document and message tables,
    - [orchestrator/graph.py]   the nodes and routing functions.

    The shared state is a Python [dict] from field names to arbitrary
    values: it is a [gmap string value].  Code that mutates the state and
    may raise runs in a small state-and-exception monad whose state
    survives a raise, as the mutated dict does in Python.  Collaborators
    that live outside the repository (model backends, the JSON parser, the
    SQL tokenizer, [re], [os.path], [hashlib], [uuid]) are fields of
    interface classes.

    Python floats are modelled by rationals (no NaN, no infinities, no
    rounding), strings by lists of 8-bit characters with ASCII case
    folding. *)

From Stdlib Require Import ZArith QArith String List Ascii Bool Lia Lqa.
From stdpp Require Import gmap strings list fin_maps pretty.

Set Warnings "-register-all".
Open Scope string_scope.
Open Scope list_scope.
Open Scope Z_scope.

(** ** Python values *)

Module Py.

Inductive value : Type :=
| VNone
| VBool (b : bool)
| VInt (z : Z)
| VFloat (q : Q)
| VStr (s : string)
| VList (l : list value)
| VDict (d : gmap string value).

(** An exception: its class name and [str(e)]. *)
Record exn : Type := Exn { exn_class : string; exn_msg : string }.

Inductive result (A : Type) : Type :=
| Ok (a : A)
| Raise (e : exn).
Arguments Ok {A} a.
Arguments Raise {A} e.

Definition TypeError (msg : string) : exn := Exn "TypeError" msg.
Definition AttributeError (msg : string) : exn := Exn "AttributeError" msg.
Definition ValueError (msg : string) : exn := Exn "ValueError" msg.
Definition KeyError (msg : string) : exn := Exn "KeyError" msg.

(** [bool(v)] *)
Definition truthy (v : value) : bool :=
  match v with
  | VNone => false
  | VBool b => b
  | VInt z => negb (z =? 0)
  | VFloat q => negb (Qeq_bool q 0)
  | VStr s => negb (String.eqb s "")
  | VList l => match l with [] => false | _ :: _ => true end
  | VDict d => match map_to_list d with [] => false | _ :: _ => true end
  end.

(** [m.get(k)] seen through [bool]: a missing key gives [None], falsy. *)
Definition truthy_opt (o : option value) : bool :=
  match o with Some v => truthy v | None => false end.

(** The numeric tower: [bool] and [int] compare with [float] by value. *)
Definition as_num (v : value) : option Q :=
  match v with
  | VBool b => Some (if b then 1%Q else 0%Q)
  | VInt z => Some (inject_Z z)
  | VFloat q => Some q
  | _ => None
  end.

Definition Qlt_bool (a b : Q) : bool := negb (Qle_bool b a).

(** [a == b] *)
Fixpoint py_eqb (a b : value) {struct a} : bool :=
  match a, b with
  | VNone, VNone => true
  | VStr s, VStr t => String.eqb s t
  | VBool x, (VBool _ | VInt _ | VFloat _) =>
      match as_num b with Some q => Qeq_bool (if x then 1%Q else 0%Q) q | None => false end
  | VInt x, (VBool _ | VInt _ | VFloat _) =>
      match as_num b with Some q => Qeq_bool (inject_Z x) q | None => false end
  | VFloat x, (VBool _ | VInt _ | VFloat _) =>
      match as_num b with Some q => Qeq_bool x q | None => false end
  | VList l, VList m =>
      (fix go (l m : list value) : bool :=
         match l, m with
         | [], [] => true
         | x :: l', y :: m' => py_eqb x y && go l' m'
         | _, _ => false
         end) l m
  | VDict d, VDict e =>
      map_fold (fun k v acc =>
                  acc && match e !! k with Some w => py_eqb v w | None => false end)
               true d
      && map_fold (fun k _ acc =>
                     acc && match d !! k with Some _ => true | None => false end)
                  true e
  | _, _ => false
  end.

(** [v == "lit"] for a string literal: only a [str] equals a [str]. *)
Definition eq_str (o : option value) (lit : string) : bool :=
  match o with Some v => py_eqb v (VStr lit) | None => false end.

(** [v < q] against a float: [TypeError] outside the numeric tower. *)
Definition py_lt_num (v : value) (q : Q) : result bool :=
  match as_num v with
  | Some x => Ok (Qlt_bool x q)
  | None => Raise (TypeError "'<' not supported")
  end.

(** [max(v, q)] for a float literal [q]: the first argument is kept
    unless the second is strictly greater. *)
Definition py_max_num (v : value) (q : Q) : result value :=
  match as_num v with
  | Some x => Ok (if Qlt_bool x q then VFloat q else v)
  | None => Raise (TypeError "'>' not supported")
  end.

(** [len(v)] *)
Definition py_len (v : value) : result Z :=
  match v with
  | VStr s => Ok (Z.of_nat (String.length s))
  | VList l => Ok (Z.of_nat (List.length l))
  | VDict d => Ok (Z.of_nat (size d))
  | _ => Raise (TypeError "object has no len()")
  end.

(** [a or b] *)
Definition py_or (a b : value) : value := if truthy a then a else b.

(** [isinstance(v, list)], [isinstance(v, dict)], [isinstance(v, str)] *)
Definition is_list (v : value) : bool :=
  match v with VList _ => true | _ => false end.
Definition is_dict (v : value) : bool :=
  match v with VDict _ => true | _ => false end.
Definition is_str (v : value) : bool :=
  match v with VStr _ => true | _ => false end.

(** ASCII [str.lower] *)
Definition lower_ascii (c : ascii) : ascii :=
  let n := nat_of_ascii c in
  if ((65 <=? n)%nat && (n <=? 90)%nat)%bool then ascii_of_nat (n + 32) else c.

Fixpoint lower (s : string) : string :=
  match s with
  | EmptyString => EmptyString
  | String c t => String (lower_ascii c) (lower t)
  end.

(** [needle in hay] on strings *)
Fixpoint contains (needle hay : string) : bool :=
  String.prefix needle hay
  || match hay with
     | EmptyString => false
     | String _ t => contains needle t
     end.

(** [any(k in s for k in keys)] *)
Definition any_in (keys : list string) (s : string) : bool :=
  existsb (fun k => contains k s) keys.

(** [s.count(c)] for a one-character needle *)
Fixpoint count_char (c : ascii) (s : string) : nat :=
  match s with
  | EmptyString => O
  | String d t => ((if Ascii.eqb c d then 1 else 0) + count_char c t)%nat
  end.

(** [sep.join(xs)] *)
Fixpoint join (sep : string) (xs : list string) : string :=
  match xs with
  | [] => ""
  | [x] => x
  | x :: rest => x +:+ sep +:+ join sep rest
  end.

End Py.
Export Py.

Abbreviation dict := (gmap string value).

(** ** state/normalize.py *)

Module Normalize.

(** [d.setdefault(k, v)] *)
Definition setdefault (k : string) (v : value) (d : dict) : dict :=
  match d !! k with
  | Some _ => d
  | None => <[k := v]> d
  end.

(** [if not isinstance(d[k], list): d[k] = []]; [k] is present where
    this is used. *)
Definition reset_unless_list (k : string) (d : dict) : dict :=
  match d !! k with
  | Some v => if is_list v then d else <[k := VList []]> d
  | None => d
  end.

Definition reset_unless_dict (k : string) (d : dict) : dict :=
  match d !! k with
  | Some v => if is_dict v then d else <[k := VDict ∅]> d
  | None => d
  end.

(** [d["is_guest"] = d.get("is_guest", d["user_id"] == "guest")] *)
Definition set_is_guest (d : dict) : dict :=
  <["is_guest" :=
      match d !! "is_guest" with
      | Some v => v
      | None => VBool (eq_str (d !! "user_id") "guest")
      end]> d.

Definition normalize_state (state : dict) : dict :=
  let normalized := state in
  (* Multi-tenant identity *)
  let normalized := setdefault "tenant_id" (VStr "default") normalized in
  let normalized := setdefault "user_id" (VStr "guest") normalized in
  let normalized := set_is_guest normalized in
  let normalized := setdefault "session_id" (VStr "") normalized in
  (* User input *)
  let normalized := setdefault "user_query" (VStr "") normalized in
  let normalized := setdefault "intent" (VStr "unknown") normalized in
  let normalized := setdefault "intent_confidence" (VFloat 0) normalized in
  (* Conversation context *)
  let normalized := setdefault "messages" (VList []) normalized in
  let normalized := reset_unless_list "messages" normalized in
  let normalized := setdefault "conversation_turn" (VInt 0) normalized in
  let normalized := setdefault "chat_history" (VList []) normalized in
  let normalized := reset_unless_list "chat_history" normalized in
  let normalized := setdefault "memory_loaded_count" (VInt 0) normalized in
  (* Data context *)
  let normalized := setdefault "uploaded_docs" (VList []) normalized in
  let normalized := reset_unless_list "uploaded_docs" normalized in
  let normalized := setdefault "db_connection" VNone normalized in
  let normalized := setdefault "db_schema" VNone normalized in
  (* Workspace *)
  let normalized := setdefault "workspace_id" (VStr "default") normalized in
  let normalized := setdefault "uploaded_doc_ids" (VList []) normalized in
  let normalized := setdefault "workspace_documents" (VList []) normalized in
  let normalized := reset_unless_list "workspace_documents" normalized in
  let normalized := setdefault "vector_index_path" VNone normalized in
  (* Agent and tool outputs *)
  let normalized := setdefault "retrieved_context" VNone normalized in
  let normalized := setdefault "generated_sql" VNone normalized in
  let normalized := setdefault "sql_validation_result" VNone normalized in
  let normalized := setdefault "code_to_execute" VNone normalized in
  let normalized := setdefault "execution_result" VNone normalized in
  let normalized := setdefault "tool_outputs" (VDict ∅) normalized in
  let normalized := reset_unless_dict "tool_outputs" normalized in
  let normalized := setdefault "research_results" VNone normalized in
  (* Control and safety *)
  let normalized := setdefault "errors" (VList []) normalized in
  let normalized := reset_unless_list "errors" normalized in
  let normalized := setdefault "retry_count" (VInt 0) normalized in
  let normalized := setdefault "max_retries" (VInt 3) normalized in
  let normalized := setdefault "approved" (VBool false) normalized in
  let normalized := setdefault "approval_required" (VBool false) normalized in
  let normalized := setdefault "approval_reason" VNone normalized in
  let normalized := setdefault "execution_status" (VStr "pending") normalized in
  let normalized := setdefault "confidence_score" (VFloat 0) normalized in
  let normalized := setdefault "risk_level" VNone normalized in
  (* Routing and flow control *)
  let normalized := setdefault "next_node" VNone normalized in
  let normalized := setdefault "should_continue" (VBool false) normalized in
  let normalized := setdefault "requires_human_input" (VBool false) normalized in
  (* Final output *)
  let normalized := setdefault "final_answer" VNone normalized in
  let normalized := setdefault "metadata" (VDict ∅) normalized in
  let normalized := reset_unless_dict "metadata" normalized in
  (* Model tracking *)
  let normalized := setdefault "model_used" VNone normalized in
  let normalized := setdefault "fallback_reason" VNone normalized in
  normalized.

(** [if "intent" not in state or state.get("intent") is None] *)
Definition ensure_intent (state : dict) : dict :=
  match state !! "intent" with
  | None | Some VNone =>
      <["intent_confidence" := VFloat 0]> (<["intent" := VStr "unknown"]> state)
  | Some _ => state
  end.

Definition ensure_metadata (state : dict) : dict :=
  match state !! "metadata" with
  | Some (VDict _) => state
  | _ => <["metadata" := VDict ∅]> state
  end.

Definition ensure_errors (state : dict) : dict :=
  match state !! "errors" with
  | Some (VList _) => state
  | _ => <["errors" := VList []]> state
  end.

(** The fields of [OrchestratorState] (state/state.py). *)
Definition state_fields : list string :=
  [ "tenant_id"; "user_id"; "is_guest"; "session_id";
    "user_query"; "intent"; "intent_confidence";
    "messages"; "conversation_turn"; "chat_history"; "memory_loaded_count";
    "uploaded_docs"; "db_connection"; "db_schema";
    "workspace_id"; "uploaded_doc_ids"; "workspace_documents"; "vector_index_path";
    "retrieved_context"; "generated_sql"; "sql_validation_result";
    "code_to_execute"; "execution_result"; "tool_outputs"; "research_results";
    "errors"; "retry_count"; "max_retries"; "approved"; "approval_required";
    "approval_reason"; "execution_status"; "confidence_score"; "risk_level";
    "next_node"; "should_continue"; "requires_human_input";
    "final_answer"; "metadata"; "model_used"; "fallback_reason" ].

(** Fields declared [List[...]] and [Dict[...]] (not [Optional]). *)
Definition list_fields : list string :=
  [ "messages"; "chat_history"; "uploaded_docs"; "uploaded_doc_ids";
    "workspace_documents"; "errors" ].
Definition dict_fields : list string := [ "tool_outputs"; "metadata" ].

(** The list-typed fields that [normalize_state] re-checks with
    [isinstance]. *)
Definition checked_list_fields : list string :=
  [ "messages"; "chat_history"; "uploaded_docs"; "workspace_documents"; "errors" ].

Definition holds_list (d : dict) (k : string) : Prop :=
  exists l, d !! k = Some (VList l).
Definition holds_dict (d : dict) (k : string) : Prop :=
  exists m, d !! k = Some (VDict m).

End Normalize.
Export Normalize.

(** ** Effects: one mutable state dict, a log of external calls, and
    exceptions that leave the mutations made so far in place *)

Module Effects.

(** Calls that leave the process, in the order they are made. *)
Inductive event : Type :=
| EvPrimary                      (* primary model backend invoked *)
| EvFallback                     (* secondary model backend invoked *)
| EvExecuteSql (sql : string)    (* SQLAgent.execute_sql *)
| EvExecuteCode (code : string). (* CodeExecutor.execute_safe *)

Record world : Type := World { w_state : dict; w_log : list event }.

Definition M (A : Type) : Type := world -> result A * world.

#[global] Instance M_ret : MRet M := fun A a w => (Ok a, w).
#[global] Instance M_bind : MBind M := fun A B f m w =>
  match m w with
  | (Ok a, w') => f a w'
  | (Raise e, w') => (Raise e, w')
  end.

Definition raise {A} (e : exn) : M A := fun w => (Raise e, w).

(** [try: body except Exception as e: handler(e)] *)
Definition try_except {A} (body : M A) (handler : exn -> M A) : M A := fun w =>
  match body w with
  | (Ok a, w') => (Ok a, w')
  | (Raise e, w') => handler e w'
  end.

(** Runs [body] and hands its outcome back as a value: the shape of
    [try: x = body except Exception as e: ...; return state]. *)
Definition attempt {A} (body : M A) : M (result A) := fun w =>
  match body w with
  | (r, w') => (Ok r, w')
  end.

Definition lift {A} (r : result A) : M A := fun w => (r, w).

Definition emit (ev : event) : M unit := fun w =>
  (Ok tt, World (w_state w) (w_log w ++ [ev])).

(** [state.get(k)] *)
Definition get (k : string) : M (option value) := fun w => (Ok (w_state w !! k), w).

(** [state.get(k, dflt)] *)
Definition get_or (k : string) (dflt : value) : M value := fun w =>
  (Ok (default dflt (w_state w !! k)), w).

(** [state[k]] *)
Definition get_item (k : string) : M value := fun w =>
  match w_state w !! k with
  | Some v => (Ok v, w)
  | None => (Raise (KeyError k), w)
  end.

(** [state[k] = v] *)
Definition set (k : string) (v : value) : M unit := fun w =>
  (Ok tt, World (<[k := v]> (w_state w)) (w_log w)).

(** [state = f(state)] for the helpers of state/normalize.py *)
Definition update (f : dict -> dict) : M unit := fun w =>
  (Ok tt, World (f (w_state w)) (w_log w)).

(** [obj[k] = x] on a value *)
Definition py_setitem (obj : value) (k : string) (x : value) : result value :=
  match obj with
  | VDict d => Ok (VDict (<[k := x]> d))
  | _ => Raise (TypeError "object does not support item assignment")
  end.

(** [obj.get(k, dflt)] on a value *)
Definition py_get (obj : value) (k : string) (dflt : value) : result value :=
  match obj with
  | VDict d => Ok (default dflt (d !! k))
  | _ => Raise (AttributeError "object has no attribute 'get'")
  end.

(** [state[k].append(x)] *)
Definition append_to (k : string) (x : value) : M unit :=
  v ← get_item k;
  match v with
  | VList l => set k (VList (l ++ [x]))
  | _ => raise (AttributeError "object has no attribute 'append'")
  end.

(** [metadata = state.get("metadata", {}); metadata[k] = x;
     state["metadata"] = metadata] *)
Definition set_metadata (k : string) (x : value) : M unit :=
  md ← get_or "metadata" (VDict ∅);
  md' ← lift (py_setitem md k x);
  set "metadata" md'.

(** [post m w Q]: running [m] from [w] ends, with a value or with an
    exception, in an outcome that satisfies [Q]. *)
Definition post {A} (m : M A) (w : world) (Q : result A -> world -> Prop) : Prop :=
  Q (m w).1 (m w).2.

(** [m] changes the state only at the keys [ks], whatever its outcome. *)
Definition modifies {A} (ks : list string) (m : M A) : Prop :=
  forall w k, k ∉ ks -> w_state (m w).2 !! k = w_state w !! k.

End Effects.
Export Effects.

(** ** llm/router.py *)

Module LLM.

Definition prompt : Type := list (string * string).

(** What a backend returns: [getattr(resp, "content", None)]. *)
Record response : Type := Response { content : option value }.

(** The two model backends ([ChatGoogleGenerativeAI], [ChatHuggingFace]);
    building the client is part of the call. *)
Class Backends : Type := {
  primary_invoke : prompt -> Q -> result response;
  fallback_invoke : prompt -> Q -> result response;
}.

Record LLMRouter : Type := {
  primary_model : string;
  fallback_repo_id : string;
  enable_fallback : bool;
}.

(** [isinstance(err, ResourceExhausted)], else the markers in
    [str(err).lower()]. *)
Definition _is_quota_exhausted_429 (err : exn) : bool :=
  if String.eqb (exn_class err) "ResourceExhausted" then true
  else
    let s := lower (exn_msg err) in
    if contains "resourceexhausted" s && contains "429" s then true
    else if contains "resource exhausted" s && contains "429" s then true
    else if contains "429" s && contains "quota" s then true
    else false.

Section Invoke.
Context `{Backends}.

Definition call_primary (messages : prompt) (temperature : Q) : M response :=
  emit EvPrimary;; lift (primary_invoke messages temperature).

Definition call_fallback (messages : prompt) (temperature : Q) : M response :=
  emit EvFallback;; lift (fallback_invoke messages temperature).

Definition invoke (self : LLMRouter) (messages : prompt) (temperature : Q) : M response :=
  try_except
    (resp ← call_primary messages temperature;
     set "model_used" (VStr (primary_model self));;
     set "fallback_reason" VNone;;
     mret resp)
    (fun e =>
       if negb (enable_fallback self && _is_quota_exhausted_429 e) then
         (* non-quota errors propagate *)
         raise e
       else
         resp ← call_fallback messages temperature;
         set "model_used" (VStr ("huggingface:" +:+ fallback_repo_id self));;
         set "fallback_reason"
             (VStr "ResourceExhausted (429) - Gemini quota limit reached");;
         md0 ← get "metadata";
         let md := py_or (default VNone md0) (VDict ∅) in
         md' ← lift (py_setitem md "fallback_used" (VBool true));
         set "metadata" md';;
         mret resp).

End Invoke.

(** The router the orchestrator builds: [LLMRouter(primary_model=llm_model)]. *)
Definition default_router : LLMRouter :=
  {| primary_model := "gemini-2.5-flash";
     fallback_repo_id := "HuggingFaceH4/zephyr-7b-beta";
     enable_fallback := true |}.

End LLM.
Export LLM.

(** ** agents/intent_router.py *)

Module Intent.

(** The members of [Intent] (state/state.py). *)
Definition valid_intents : list string :=
  [ "rag"; "sql"; "code"; "research"; "chat"; "unknown" ].

(** What the classifier takes from outside the repository: the f-string
    over the recent messages, [ChatPromptTemplate.format_messages],
    [JsonOutputParser.parse], [float] on a string and [str]. *)
Class ClassifierEnv : Type := {
  render_history : value -> result string;
  format_messages : value -> string -> string -> result prompt;
  json_parse : string -> result value;
  float_of_str : string -> option Q;
  py_str : value -> string;
}.

Record IntentRouter : Type := {
  _temperature : Q;
  llm_router : LLMRouter;
}.

Section Classify.
Context `{Backends} `{ClassifierEnv}.

(** [float(v)] *)
Definition py_float (v : value) : result Q :=
  match v with
  | VFloat q => Ok q
  | VInt z => Ok (inject_Z z)
  | VBool b => Ok (if b then 1%Q else 0%Q)
  | VStr s =>
      match float_of_str s with
      | Some q => Ok q
      | None => Raise (ValueError "could not convert string to float")
      end
  | _ => Raise (TypeError "float() argument must be a string or a real number")
  end.

(** [try: float(v) except (ValueError, TypeError): 0.5] *)
Definition float_or_half (v : value) : result Q :=
  match py_float v with
  | Ok q => Ok q
  | Raise e =>
      if String.eqb (exn_class e) "ValueError" || String.eqb (exn_class e) "TypeError"
      then Ok 0.5%Q
      else Raise e
  end.

(** [intent not in valid_intents]: the set hashes its argument. *)
Definition not_in_valid_intents (intent : value) : result bool :=
  match intent with
  | VList _ | VDict _ => Raise (TypeError "unhashable type")
  | _ => Ok (negb (existsb (fun i => py_eqb intent (VStr i)) valid_intents))
  end.

(** The history block and its [except Exception]. *)
Definition history_context (messages : value) : string :=
  if truthy messages then
    match render_history messages with
    | Ok h => if String.eqb h "" then "No previous conversation" else h
    | Raise _ => "No previousconversation"
    end
  else "No previous conversation".

(** The four lines every degraded path shares. *)
Definition set_unknown (reasoning : string) : M unit :=
  set "intent" (VStr "unknown");;
  set "intent_confidence" (VFloat 0);;
  set_metadata "intent_reasoning" (VStr reasoning).

Definition classify (self : IntentRouter) : M unit :=
  update ensure_metadata;;
  update ensure_errors;;
  update ensure_intent;;
  msgs0 ← get_or "messages" (VList []);
  let history := history_context msgs0 in
  uploaded_docs ← get_or "uploaded_docs" (VList []);
  workspace_docs ← get_or "workspace_documents" (VList []);
  let has_docs := truthy (py_or uploaded_docs workspace_docs) in
  part ← (if has_docs then
            n1 ← lift (py_len uploaded_docs);
            n2 ← lift (py_len workspace_docs);
            mret ("Documents available: " +:+ pretty (n1 + n2) +:+ " files uploaded")
          else mret "No documents uploaded");
  let context_info := join " | " [part; "Research tool: DuckDuckGo search available"] in
  query ← get_or "user_query" (VStr "");
  if negb (truthy query) then set_unknown "Empty query"
  else
    formatted ← attempt (lift (format_messages query history context_info));
    match formatted with
    | Raise e =>
        append_to "errors" (VStr ("Prompt formatting error: " +:+ exn_msg e));;
        set_unknown ("Prompt formatting failed: " +:+ exn_msg e)
    | Ok messages =>
        answered ← attempt (invoke (llm_router self) messages (_temperature self));
        match answered with
        | Raise e =>
            append_to "errors" (VStr ("LLM invocation error: " +:+ exn_msg e));;
            set_unknown ("LLM invocation failed: " +:+ exn_msg e)
        | Ok response =>
            match content response with
            | Some (VStr text) =>
                match json_parse text with
                | Raise e =>
                    set_unknown ("Invalid JSON from intent classifier: " +:+ exn_msg e)
                | Ok parsed =>
                    intent0 ← lift (py_get parsed "intent" VNone);
                    let intent := py_or intent0 (VStr "unknown") in
                    conf0 ← lift (py_get parsed "confidence" (VFloat 0.5));
                    confidence ← lift (float_or_half conf0);
                    reasoning0 ← lift (py_get parsed "reasoning" (VStr ""));
                    let reasoning := py_str reasoning0 in
                    invalid ← lift (not_in_valid_intents intent);
                    let intent := if (invalid : bool) then VStr "unknown" else intent in
                    let confidence := if (invalid : bool) then 0%Q else confidence in
                    set "intent" intent;;
                    set "intent_confidence" (VFloat confidence);;
                    set_metadata "intent_reasoning" (VStr reasoning)
                end
            | _ => set_unknown "Failed to parse intent response"
            end
        end
    end.

(** [route]: [routing_map.get(state.get("intent"), "chat_agent")]; the
    lookup hashes the intent. *)
Definition route (state : dict) : result string :=
  match state !! "intent" with
  | Some (VList _) | Some (VDict _) => Raise (TypeError "unhashable type")
  | Some (VStr i) =>
      if String.eqb i "rag" then Ok "rag_agent"
      else if String.eqb i "sql" then Ok "sql_agent"
      else if String.eqb i "code" then Ok "code_agent"
      else if String.eqb i "research" then Ok "research_agent"
      else if String.eqb i "chat" then Ok "chat_agent"
      else if String.eqb i "unknown" then Ok "chat_agent"
      else Ok "chat_agent"
  | _ => Ok "chat_agent"
  end.

(** The fields [classify] takes [len] of hold lists where present, as
    they do after [normalize_state]. *)
Definition docs_are_lists (s : dict) : Prop :=
  forall k v, k ∈ ["uploaded_docs"; "workspace_documents"] ->
              s !! k = Some v -> is_list v = true.

(** Every reply that parses is a JSON object whose label can be hashed. *)
Definition replies_are_objects : Prop :=
  forall text v, json_parse text = Ok v ->
    exists d, v = VDict d
              /\ forall x, d !! "intent" = Some x -> is_list x = false /\ is_dict x = false.

(** [c] is [float] of the confidence entry of some reply. *)
Definition reported (c : Q) : Prop :=
  exists text d v, json_parse text = Ok (VDict d)
                   /\ d !! "confidence" = Some v /\ py_float v = Ok c.

(** The outcome of a classification: no exception, a label of the closed
    set, and a float confidence that is 0.0, 0.5 or the reported one. *)
Definition classified (r : result unit) (w' : world) : Prop :=
  r = Ok tt
  /\ exists i c, w_state w' !! "intent" = Some (VStr i) /\ In i valid_intents
                 /\ w_state w' !! "intent_confidence" = Some (VFloat c)
                 /\ (c = 0%Q \/ c = 0.5%Q \/ reported c).

(** The keys [classify] may write. *)
Definition classify_keys : list string :=
  ["metadata"; "errors"; "intent"; "intent_confidence"; "model_used"; "fallback_reason"].

End Classify.

End Intent.
Export Intent.


(** ** config/tenant_config.py *)

Module Tenant.

Inductive TenantTier : Type := FREE | BASIC | PRO | ENTERPRISE.


Record TenantConfig : Type := {
  tenant_id : string;
  tier : TenantTier;
  max_documents : Z;
  max_query_length : Z;
  allowed_agents : list string;
  db_connection : option string;
  db_schema : option dict;
  llm_model : string;
  enable_code_execution : bool;
  enable_sql_execution : bool;
  require_approval_for_risky_ops : bool;
  max_retries : Z;
}.

(** [__post_init__]: the agents of a tier, when none are given. *)
Definition __post_init__ (allowed : option (list string)) (t : TenantTier) : list string :=
  match allowed with
  | Some agents => agents
  | None =>
      match t with
      | FREE => ["chat"; "rag"]
      | BASIC => ["chat"; "rag"; "research"]
      | PRO => ["chat"; "rag"; "research"; "sql"; "code"]
      | ENTERPRISE => ["chat"; "rag"; "research"; "sql"; "code"]
      end
  end.

(** [TenantConfig(tenant_id=tenant_id)]: every other field at its default. *)
Definition new_config (tenant : string) : TenantConfig :=
  {| tenant_id := tenant;
     tier := FREE;
     max_documents := 10;
     max_query_length := 1000;
     allowed_agents := __post_init__ None FREE;
     db_connection := None;
     db_schema := None;
     llm_model := "gpt-4o-mini";
     enable_code_execution := false;
     enable_sql_execution := false;
     require_approval_for_risky_ops := true;
     max_retries := 3 |}.

Record TenantConfigManager : Type := { configs : gmap string TenantConfig }.

(** [_initialize_defaults] *)
Definition default_config : TenantConfig :=
  {| tenant_id := "default";
     tier := PRO;
     max_documents := 10;
     max_query_length := 1000;
     allowed_agents :=
       __post_init__ (Some ["chat"; "rag"; "research"; "sql"; "code"]) PRO;
     db_connection := None;
     db_schema := None;
     llm_model := "gpt-4o-mini";
     enable_code_execution := true;
     enable_sql_execution := true;
     require_approval_for_risky_ops := true;
     max_retries := 3 |}.

(** [TenantConfigManager()] *)
Definition new_manager : TenantConfigManager :=
  {| configs := {[ "default" := default_config ]} |}.

(** [get_config]: an unknown tenant is given a default configuration,
    which is stored. *)
Definition get_config (self : TenantConfigManager) (tenant : string)
  : TenantConfig * TenantConfigManager :=
  match configs self !! tenant with
  | Some c => (c, self)
  | None =>
      let c := new_config tenant in
      (c, {| configs := <[tenant := c]> (configs self) |})
  end.

Definition set_config (self : TenantConfigManager) (tenant : string) (config : TenantConfig)
  : TenantConfigManager :=
  {| configs := <[tenant := config]> (configs self) |}.

(** [agent_name.lower() in [a.lower() for a in config.allowed_agents]] *)
Definition is_agent_allowed (self : TenantConfigManager) (tenant agent_name : string)
  : bool * TenantConfigManager :=
  let '(config, self) := get_config self tenant in
  (existsb (String.eqb (lower agent_name)) (map lower (allowed_agents config)), self).


End Tenant.

(** ** The validators of agents/sql_agent.py and agents/code_agent.py *)

Module Validators.

(** ASCII [str.upper] *)
Definition upper_ascii (c : ascii) : ascii :=
  let n := nat_of_ascii c in
  if ((97 <=? n)%nat && (n <=? 122)%nat)%bool then ascii_of_nat (n - 32) else c.

Fixpoint upper (s : string) : string :=
  match s with
  | EmptyString => EmptyString
  | String c t => String (upper_ascii c) (upper t)
  end.

(** The characters [str.strip()] removes: space, tab, newline, vertical
    tab, form feed, carriage return and the four ASCII separators. *)
Definition is_space (c : ascii) : bool :=
  let n := nat_of_ascii c in
  ((n =? 32) || ((9 <=? n) && (n <=? 13)) || ((28 <=? n) && (n <=? 31)))%nat.

Fixpoint lstrip (s : string) : string :=
  match s with
  | EmptyString => EmptyString
  | String c t => if is_space c then lstrip t else s
  end.

Fixpoint rstrip (s : string) : string :=
  match s with
  | EmptyString => EmptyString
  | String c t =>
      match rstrip t with
      | EmptyString => if is_space c then EmptyString else String c EmptyString
      | t' => String c t'
      end
  end.

Definition strip (s : string) : string := rstrip (lstrip s).

(** [s.split(":")[0]] *)
Fixpoint before_colon (s : string) : string :=
  match s with
  | EmptyString => EmptyString
  | String c t => if Ascii.eqb c ":" then EmptyString else String c (before_colon t)
  end.

(** [re.search(pattern, text, re.IGNORECASE) is not None] *)
Class Regex : Type := { re_search : string -> string -> bool }.

(** [sqlparse.parse(sql)], seen through the loop that reads it: the
    [value] of every top-level token whose [ttype] is [Keyword], over all
    statements, in order. *)
Class SqlParser : Type := { sqlparse_keywords : string -> result (list string) }.

(** [ast.parse(code)] *)
Class PyParser : Type := { ast_parse : string -> result unit }.

(** The dict both validators return. *)
Record validation : Type := {
  is_safe : bool;
  risk_level : string;
  issues : list string;
  requires_approval : bool;
}.

Definition validation_dict (v : validation) : value :=
  VDict {[ "is_safe" := VBool (is_safe v);
           "risk_level" := VStr (risk_level v);
           "issues" := VList (map VStr (issues v));
           "requires_approval" := VBool (requires_approval v) ]}.

(** [risk_level in ["medium", "high"]] *)
Definition medium_or_high (risk : string) : bool :=
  String.eqb risk "medium" || String.eqb risk "high".

Module SQLValidator.

Definition DANGEROUS_PATTERNS : list (string * string) :=
  [ ("\bDROP\s+TABLE\b", "DROP TABLE operations");
    ("\bDELETE\s+FROM\b", "DELETE operations");
    ("\bTRUNCATE\b", "TRUNCATE operations");
    ("\bALTER\s+TABLE\b", "ALTER TABLE operations");
    ("\bCREATE\s+TABLE\b", "CREATE TABLE operations");
    ("\bINSERT\s+INTO\b", "INSERT operations");
    ("\bUPDATE\s+.*\s+SET\b", "UPDATE operations");
    (";\s*DROP", "Multiple statements with DROP");
    (";\s*DELETE", "Multiple statements with DELETE");
    ("--", "SQL comments (potential injection)");
    ("/\*.*\*/", "SQL block comments") ].

Definition SAFE_PATTERNS : list string :=
  [ "\bSELECT\b"; "\bWITH\b"; "\bFROM\b"; "\bWHERE\b"; "\bGROUP\s+BY\b";
    "\bORDER\s+BY\b"; "\bHAVING\b"; "\bJOIN\b"; "\bLIMIT\b" ].

Definition dangerous_keywords : list string :=
  [ "DELETE"; "DROP"; "UPDATE"; "INSERT"; "ALTER"; "TRUNCATE"; "CREATE" ].

Section Validate.
Context `{Regex} `{SqlParser}.

(** The loop over [DANGEROUS_PATTERNS]; the accumulator is
    [(issues, risk_level)]. *)
Definition pattern_pass (sql_upper : string) (acc : list string * string)
  : list string * string :=
  fold_left
    (fun acc pd =>
       if re_search pd.1 sql_upper
       then (acc.1 ++ ["Potentially dangerous: " +:+ pd.2], "high")
       else acc)
    DANGEROUS_PATTERNS acc.

(** The loop over the keyword tokens, and its [except Exception]. *)
Definition ast_pass (sql : string) (acc : list string * string)
  : list string * string :=
  match sqlparse_keywords sql with
  | Ok tokens =>
      fold_left
        (fun acc token =>
           let upper_token := upper token in
           if existsb (String.eqb upper_token) dangerous_keywords then
             if negb (existsb (String.eqb ("Dangerous operation: " +:+ upper_token)) acc.1)
             then (acc.1 ++ ["Dangerous operation detected via AST: " +:+ upper_token],
                   "high")
             else acc
           else acc)
        tokens acc
  | Raise e => (acc.1 ++ ["SQL parsing warning: " +:+ exn_msg e], "medium")
  end.

(** [has_safe_pattern], after both the patterns and the tokens are seen. *)
Definition has_safe_pattern (sql sql_upper : string) : bool :=
  let by_pattern := existsb (fun p => re_search p sql_upper) SAFE_PATTERNS in
  match sqlparse_keywords sql with
  | Ok tokens =>
      if existsb (fun token => String.eqb (upper token) "SELECT") tokens
      then true else by_pattern
  | Raise _ => by_pattern
  end.

Definition validate (sql : string) : validation :=
  let sql_upper := strip (upper sql) in
  let acc := pattern_pass sql_upper ([], "low") in
  let acc := ast_pass sql acc in
  let safe := has_safe_pattern sql sql_upper in
  let acc :=
    if negb safe && match acc.1 with [] => true | _ => false end
    then (acc.1 ++ ["Query doesn't appear to be a SELECT query"], "medium")
    else acc in
  let acc :=
    if (1 <? count_char ";" sql)%nat
    then (acc.1 ++ ["Multiple statements detected"], "high")
    else acc in
  {| is_safe := match acc.1 with [] => true | _ => false end && safe;
     risk_level := acc.2;
     issues := acc.1;
     requires_approval := medium_or_high acc.2 |}.

End Validate.
End SQLValidator.

Module CodeValidator.

Definition DANGEROUS_PATTERNS : list (string * string) :=
  [ ("import\s+os", "OS module import");
    ("import\s+subprocess", "Subprocess import");
    ("__import__", "Dynamic import");
    ("eval\s*\(", "Eval function");
    ("exec\s*\(", "Exec function");
    ("open\s*\(", "File operations");
    ("subprocess\.", "Subprocess calls");
    ("os\.system", "OS system calls");
    ("\.remove\s*\(", "File deletion");
    ("\.rmdir\s*\(", "Directory deletion");
    ("socket\.", "Network operations") ].

Definition file_operations : list string := [ "open("; "write("; "delete"; "remove" ].

(** [except SyntaxError] also catches its subclasses. *)
Definition is_syntax_error (e : exn) : bool :=
  existsb (String.eqb (exn_class e)) [ "SyntaxError"; "IndentationError"; "TabError" ].

Section Validate.
Context `{Regex} `{PyParser}.

Definition pattern_pass (code : string) (acc : list string * string)
  : list string * string :=
  fold_left
    (fun acc pd =>
       if re_search pd.1 code
       then (acc.1 ++ ["Potentially dangerous: " +:+ pd.2], "high")
       else acc)
    DANGEROUS_PATTERNS acc.

Definition validate (code : string) : result validation :=
  let acc := pattern_pass code ([], "low") in
  match
    match ast_parse code with
    | Ok _ => Ok acc
    | Raise e =>
        if is_syntax_error e
        then Ok (acc.1 ++ ["Syntax error: " +:+ exn_msg e], "medium")
        else Raise e
    end
  with
  | Raise e => Raise e
  | Ok acc =>
      let acc :=
        if existsb (fun op => contains op code) file_operations then
          let risk := if String.eqb acc.2 "low" then "high" else acc.2 in
          if negb (existsb (String.eqb "File operations detected")
                           (map before_colon acc.1))
          then (acc.1 ++ ["File operations detected"], risk)
          else (acc.1, risk)
        else acc in
      let requires :=
        medium_or_high acc.2 || (0 <? Z.of_nat (List.length acc.1)) in
      Ok {| is_safe := match acc.1 with [] => true | _ => false end
                       && String.eqb acc.2 "low";
            risk_level := acc.2;
            issues := acc.1;
            requires_approval := requires |}
  end.

End Validate.
End CodeValidator.

End Validators.
Export Validators.

(** ** orchestrator/graph.py: the nodes and routing functions that do not
    touch storage *)

Module Graph.

(** [a < b]: numbers by value, strings and lists lexicographically,
    [TypeError] otherwise. *)
Fixpoint py_lt (a b : value) {struct a} : result bool :=
  match a, b with
  | (VBool _ | VInt _ | VFloat _), (VBool _ | VInt _ | VFloat _) =>
      match as_num a, as_num b with
      | Some x, Some y => Ok (Qlt_bool x y)
      | _, _ => Raise (TypeError "'<' not supported")
      end
  | VStr s, VStr t => Ok (String.ltb s t)
  | VList l, VList m =>
      (fix go (l m : list value) : result bool :=
         match l, m with
         | [], [] => Ok false
         | [], _ :: _ => Ok true
         | _ :: _, [] => Ok false
         | x :: l', y :: m' => if py_eqb x y then go l' m' else py_lt x y
         end) l m
  | _, _ => Raise (TypeError "'<' not supported")
  end.

(** [state.get("retry_count", 0) < state.get("max_retries", 3)] *)
Definition under_budget (state : dict) : result bool :=
  py_lt (default (VInt 0) (state !! "retry_count"))
        (default (VInt 3) (state !! "max_retries")).

Definition _approval_gate_node (state : dict) : dict :=
  let state := normalize_state state in
  if truthy (default (VBool false) (state !! "approved")) then
    <["should_continue" := VBool true]> (<["execution_status" := VStr "approved"]> state)
  else
    <["should_continue" := VBool false]>
      (<["requires_human_input" := VBool true]>
         (<["execution_status" := VStr "requires_approval"]> state)).

Definition _route_after_approval (state : dict) : string :=
  if truthy (default (VBool false) (state !! "approved")) then
    if eq_str (state !! "intent") "sql" then "sql_agent"
    else if eq_str (state !! "intent") "code" then "code_agent"
    else "end"
  else "end".

Definition _retry_handler_node (state : dict) : result dict :=
  let state := normalize_state state in
  match under_budget state with
  | Raise e => Raise e
  | Ok true => Ok (<["should_continue" := VBool true]> state)
  | Ok false =>
      Ok (<["execution_status" := VStr "failed"]>
            (<["should_continue" := VBool false]> state))
  end.

Definition _route_after_retry (state : dict) : string :=
  if truthy (default (VBool false) (state !! "should_continue")) then
    if eq_str (state !! "intent") "sql" then "sql_agent"
    else if eq_str (state !! "intent") "code" then "code_agent"
    else "end"
  else "end".

Definition _route_after_agent (state : dict) : result string :=
  if truthy (default (VBool false) (state !! "approval_required"))
     && negb (truthy (default (VBool false) (state !! "approved")))
  then Ok "approval_gate"
  else if truthy (default (VBool false) (state !! "should_continue")) then
    match under_budget state with
    | Raise e => Raise e
    | Ok true => Ok "retry_handler"
    | Ok false => Ok "end"
    end
  else Ok "end".

(** [query.lower()] *)
Definition py_lower (v : value) : result string :=
  match v with
  | VStr s => Ok (lower s)
  | _ => Raise (AttributeError "object has no attribute 'lower'")
  end.

Definition research_keywords : list string :=
  [ "weather"; "temperature"; "current"; "today"; "now"; "latest"; "recent";
    "this week"; "this month" ].

Definition rag_triggers : list string :=
  [ "explain"; "summarize"; "what"; "where"; "how"; "list"; "describe";
    "analysis"; "insight" ].

(** The routing decision; it writes its overrides into the state it is
    given.  The [TenantConfigManager] it builds is never consulted. *)
Definition _route_after_classification : M string :=
  update ensure_metadata;;
  update ensure_errors;;
  update ensure_intent;;
  intent ← get_or "intent" (VStr "unknown");
  confidence ← get_or "intent_confidence" (VFloat 0);
  query ← get_or "user_query" (VStr "");
  query_lower ← lift (py_lower query);
  '(intent, confidence) ←
    (if any_in research_keywords query_lower then
       set "intent" (VStr "research");;
       boosted ← lift (py_max_num confidence 0.75);
       set "intent_confidence" boosted;;
       set_metadata "routing_override" (VStr "keyword_based_research");;
       mret (VStr "research", boosted)
     else mret (intent, confidence));
  low ← (if negb (truthy intent) then mret true
         else if py_eqb intent (VStr "unknown") then mret true
         else lift (py_lt_num confidence 0.4));
  if (low : bool) then
    uploaded_docs ← get_or "uploaded_docs" (VList []);
    workspace_docs ← get_or "workspace_documents" (VList []);
    let has_docs := truthy (py_or uploaded_docs workspace_docs) in
    query_length ← lift (py_len query);
    if has_docs && any_in rag_triggers query_lower && (5 <? query_length) then
      set "intent" (VStr "rag");;
      set "intent_confidence" (VFloat 0.8);;
      set_metadata "routing_override" (VStr "auto_rag_due_to_docs");;
      mret "rag_agent"
    else if has_docs && (10 <? query_length) then
      set "intent" (VStr "rag");;
      set "intent_confidence" (VFloat 0.55);;
      mret "rag_agent"
    else
      set "intent" (VStr "chat");;
      set "intent_confidence" (VFloat 0.6);;
      mret "fallback_handler"
  else if py_eqb intent (VStr "rag") then mret "rag_agent"
  else if py_eqb intent (VStr "sql") then mret "sql_agent"
  else if py_eqb intent (VStr "code") then mret "code_agent"
  else if py_eqb intent (VStr "research") then mret "research_agent"
  else if py_eqb intent (VStr "chat") then mret "chat_agent"
  else mret "fallback_handler".

(** The targets the graph registers for the classification edge. *)
Definition classification_targets : list string :=
  [ "rag_agent"; "sql_agent"; "code_agent"; "research_agent"; "chat_agent";
    "graceful_fallback"; "fallback_handler" ].

End Graph.
Export Graph.

(** ** storage/sqlite_store.py: the [user_documents] table *)

Module Storage.

(** A row of [user_documents].  The table is kept in insertion order, the
    order of the [ts_utc] defaults that [ORDER BY ts_utc ASC] reads; an
    update on conflict leaves [ts_utc], and so the position, alone. *)
Record document : Type := {
  doc_user : string;
  doc_workspace : string;
  doc_id : string;
  file_path : string;
  vector_index_path : string;
}.

(** [PRIMARY KEY (user_id, workspace_id, doc_id)] *)
Definition same_key (u w id : string) (d : document) : bool :=
  String.eqb (doc_user d) u && String.eqb (doc_workspace d) w && String.eqb (doc_id d) id.

(** [INSERT ... ON CONFLICT(user_id, workspace_id, doc_id) DO UPDATE SET
    file_path, vector_index_path] *)
Definition upsert_document (db : list document) (u w id path index : string)
  : list document :=
  if existsb (same_key u w id) db then
    map (fun d => if same_key u w id d
                  then {| doc_user := u; doc_workspace := w; doc_id := id;
                          file_path := path; vector_index_path := index |}
                  else d) db
  else db ++ [ {| doc_user := u; doc_workspace := w; doc_id := id;
                  file_path := path; vector_index_path := index |} ].

(** [SELECT ... WHERE user_id = ? AND workspace_id = ? ORDER BY ts_utc ASC],
    and the index path of the last row. *)
Definition list_workspace_documents (db : list document) (u w : string)
  : list document * option string :=
  let docs := filter (fun d => String.eqb (doc_user d) u && String.eqb (doc_workspace d) w = true) db in
  (docs, vector_index_path <$> last docs).

(** The primary key of a row. *)
Definition doc_key (d : document) : string * string * string :=
  (doc_user d, doc_workspace d, doc_id d).

(** The row an upsert writes. *)
Definition new_row (u w id path index : string) : document :=
  {| doc_user := u; doc_workspace := w; doc_id := id;
     file_path := path; vector_index_path := index |}.

End Storage.

(** ** agents/sql_agent.py: the handler *)

Module SqlAgent.

(** What the handler takes from outside the repository: the prompt built
    from the schema, the query and the previous attempts
    ([_get_schema_context] and [format_messages]), [str] of a response
    without [content], the two [re.sub] calls that drop the Markdown
    fences, and [str] of a value inside an f-string. *)
Class SqlAgentEnv : Type := {
  sql_prompt : dict -> result prompt;
  response_str : response -> string;
  drop_fences : string -> string;
  str_of : value -> string;
}.

Record SQLAgent : Type := {
  _temperature : Q;
  llm_router : LLMRouter;
  max_retries : Z;
}.

(** [SQLAgent(llm_router=self.llm_router)] *)
Definition default_agent : SQLAgent :=
  {| _temperature := 0; llm_router := default_router; max_retries := 3 |}.

Definition nl : string := String (ascii_of_nat 10) EmptyString.

(** [a + 1] *)
Definition py_succ (a : value) : result value :=
  match a with
  | VInt n => Ok (VInt (n + 1))
  | VBool b => Ok (VInt ((if b then 1 else 0) + 1))
  | VFloat q => Ok (VFloat (q + 1))
  | _ => Raise (TypeError "unsupported operand type(s) for +")
  end.

(** [", ".join(xs)] for a list [xs]: every item must be a [str]. *)
Fixpoint strings_of (xs : list value) : result (list string) :=
  match xs with
  | [] => Ok []
  | VStr s :: rest =>
      match strings_of rest with
      | Ok ss => Ok (s :: ss)
      | Raise e => Raise e
      end
  | _ :: _ => Raise (TypeError "sequence item: expected str instance")
  end.

Definition join_list (sep : string) (v : value) : result string :=
  match v with
  | VList xs =>
      match strings_of xs with
      | Ok ss => Ok (join sep ss)
      | Raise e => Raise e
      end
  | _ => Raise (TypeError "can only join a list here")
  end.

Section Execute.
Context `{Backends} `{Regex} `{SqlParser} `{SqlAgentEnv}.

(** [f"{v}"] *)
Definition fmt (v : value) : string :=
  match v with
  | VStr s => s
  | _ => str_of v
  end.

Definition generate_sql (self : SQLAgent) : M string :=
  state ← (fun w => (Ok (w_state w), w));
  msgs ← lift (sql_prompt state);
  resp ← invoke (llm_router self) msgs (_temperature self);
  text ← lift (match content resp with
               | Some (VStr t) => Ok t
               | Some _ => Raise (TypeError "expected string or bytes-like object")
               | None => Ok (response_str resp)
               end);
  mret (strip (drop_fences text)).

Definition validate_sql (sql : string) : validation := SQLValidator.validate sql.

(** The mock executor: without a connection it returns an error text. *)
Definition execute_sql (sql : value) : M string :=
  emit (EvExecuteSql (fmt sql));;
  db_connection ← get "db_connection";
  if negb (truthy_opt db_connection)
  then mret "Error: No database connection configured."
  else mret ("[Mock] Executed query: " +:+ fmt sql +:+ nl
             +:+ "[In production, this would execute against the database]").

Definition assistant_message (answer : string) (metadata : dict) : value :=
  VDict {[ "role" := VStr "assistant"; "content" := VStr answer;
           "metadata" := VDict metadata ]}.

(** The [except Exception as e] block. *)
Definition on_exception (self : SQLAgent) (retry_count : value) (e : exn) : M unit :=
  update ensure_errors;;
  append_to "errors" (VStr (exn_msg e));;
  under ← lift (py_lt retry_count (VInt (max_retries self)));
  if (under : bool) then
    next ← lift (py_succ retry_count);
    set "retry_count" next;;
    set "execution_status" (VStr "failed");;
    set "should_continue" (VBool true)
  else
    set "execution_status" (VStr "failed");;
    errors ← get_or "errors" (VList []);
    joined ← lift (join_list ", " errors);
    set "final_answer"
        (VStr ("Failed to generate or execute SQL after " +:+ pretty (max_retries self)
               +:+ " attempts. Errors: " +:+ joined)).

Definition execute (self : SQLAgent) : M unit :=
  update normalize_state;;
  update ensure_metadata;;
  update ensure_errors;;
  update ensure_intent;;
  retry_count ← get_or "retry_count" (VInt 0);
  try_except
    (approved ← get "approved";
     generated ← get "generated_sql";
     if truthy_opt approved && truthy_opt generated then
       sql ← get_item "generated_sql";
       set "execution_status" (VStr "executing");;
       result ← execute_sql sql;
       set "execution_result" (VStr result);;
       set "execution_status" (VStr "completed");;
       let answer :=
         "Query executed successfully (Approved):" +:+ nl +:+ nl +:+ "```sql" +:+ nl
         +:+ fmt sql +:+ nl +:+ "```" +:+ nl +:+ nl +:+ "Results:" +:+ nl +:+ result in
       set "final_answer" (VStr answer);;
       set "confidence_score" (VFloat 0.95);;
       append_to "messages"
         (assistant_message answer
            {[ "agent" := VStr "sql"; "sql" := sql; "approved" := VBool true ]})
     else
       sql ← generate_sql self;
       set "generated_sql" (VStr sql);;
       let validation := validate_sql sql in
       set "sql_validation_result" (validation_dict validation);;
       if requires_approval validation then
         set "approval_required" (VBool true);;
         set "approval_reason"
             (VStr ("SQL validation issues: " +:+ join ", " (issues validation)));;
         set "risk_level" (VStr (risk_level validation));;
         set "execution_status" (VStr "requires_approval")
       else
         approval_required ← get "approval_required";
         approved ← get_or "approved" (VBool false);
         if truthy_opt approval_required && negb (truthy approved) then
           set "execution_status" (VStr "pending")
         else
           set "execution_status" (VStr "executing");;
           result ← execute_sql (VStr sql);
           set "execution_result" (VStr result);;
           set "execution_status" (VStr "completed");;
           let answer :=
             "Query executed successfully:" +:+ nl +:+ nl +:+ "```sql" +:+ nl
             +:+ sql +:+ nl +:+ "```" +:+ nl +:+ nl +:+ "Results:" +:+ nl +:+ result in
           set "final_answer" (VStr answer);;
           set "confidence_score" (VFloat (if is_safe validation then 0.9 else 0.7));;
           append_to "messages"
             (assistant_message answer {[ "agent" := VStr "sql"; "sql" := VStr sql ]}))
    (on_exception self retry_count).

End Execute.
End SqlAgent.

(** ** Stand-ins for the collaborators, used in the examples *)

Module Examples.

Definition quota_error : exn :=
  Exn "ResourceExhausted" "429 Resource exhausted: quota exceeded".
Definition server_error : exn := Exn "InternalServerError" "500 internal error".

(** A primary backend that is out of quota and a secondary that answers. *)
Definition out_of_quota : Backends :=
  {| primary_invoke := fun _ _ => Raise quota_error;
     fallback_invoke := fun _ _ => Ok (Response (Some (VStr "hello"))) |}.

(** A primary backend that fails for another reason. *)
Definition broken_primary : Backends :=
  {| primary_invoke := fun _ _ => Raise server_error;
     fallback_invoke := fun _ _ => Ok (Response (Some (VStr "hello"))) |}.

(** A primary backend that answers [text]. *)
Definition answering (text : string) : Backends :=
  {| primary_invoke := fun _ _ => Ok (Response (Some (VStr text)));
     fallback_invoke := fun _ _ => Raise (Exn "Unavailable" "no fallback") |}.

Definition no_fallback_router : LLMRouter :=
  {| primary_model := "gemini-2.5-flash";
     fallback_repo_id := "HuggingFaceH4/zephyr-7b-beta";
     enable_fallback := false |}.

(** A parser that reads every reply as [reply]. *)
Definition reply_env (reply : result value) : ClassifierEnv :=
  {| render_history := fun _ => Ok "";
     format_messages := fun q h c => Ok [("system", c); ("human", h)];
     json_parse := fun _ => reply;
     float_of_str := fun _ => None;
     py_str := fun v => match v with VStr s => s | _ => "" end |}.

(** [IntentRouter(llm_router=self.llm_router)] *)
Definition default_intent_router : IntentRouter :=
  {| _temperature := 0.1; llm_router := default_router |}.

Definition empty_world : world := World ∅ [].

(** A fresh run on the query [q]. *)
Definition asking (q : string) : world :=
  World (normalize_state {[ "user_query" := VStr q ]}) [].

(** A regex engine that never matches and a tokenizer that finds no
    keyword token: the least the validator can be told. *)
Definition silent_regex : Regex := {| re_search := fun _ _ => false |}.
Definition no_keywords : SqlParser := {| sqlparse_keywords := fun _ => Ok [] |}.

(** A regex engine that matches exactly the pattern [p]. *)
Definition only_pattern (p : string) : Regex :=
  {| re_search := fun pattern _ => String.eqb pattern p |}.

(** A parser that accepts everything. *)
Definition parses_everything : PyParser := {| ast_parse := fun _ => Ok tt |}.

(** A prompt builder and formatter for the examples. *)
Definition plain_sql_env : SqlAgent.SqlAgentEnv :=
  {| SqlAgent.sql_prompt := fun _ => Ok [("human", "Generate SQL query:")];
     SqlAgent.response_str := fun _ => "";
     SqlAgent.drop_fences := fun s => s;
     SqlAgent.str_of := fun _ => "" |}.

End Examples.
Export Examples.

(** * Theorems *)

(** ** The normalizer *)

Section NormalizeFacts.

Implicit Types (d : dict) (k j : string) (v : value).

Lemma setdefault_present k v d : is_Some (setdefault k v d !! k).
Proof.
  unfold setdefault. destruct (d !! k) eqn:E.
  - rewrite E. eauto.
  - rewrite lookup_insert_eq. eauto.
Qed.

Lemma setdefault_keeps k v d j : is_Some (d !! j) -> is_Some (setdefault k v d !! j).
Proof.
  unfold setdefault. intros H. destruct (d !! k) eqn:E; [done|].
  destruct (decide (k = j)) as [->|Hne].
  - rewrite lookup_insert_eq. eauto.
  - by rewrite lookup_insert_ne.
Qed.

Lemma setdefault_id k v d : is_Some (d !! k) -> setdefault k v d = d.
Proof. unfold setdefault. by intros [x ->]. Qed.

Lemma setdefault_lookup_old k v d j x :
  d !! j = Some x -> setdefault k v d !! j = Some x.
Proof.
  unfold setdefault. intros H. destruct (d !! k) eqn:E; [done|].
  destruct (decide (k = j)) as [->|Hne]; [congruence|].
  by rewrite lookup_insert_ne.
Qed.

Lemma reset_unless_list_keeps k d j :
  is_Some (d !! j) -> is_Some (reset_unless_list k d !! j).
Proof.
  unfold reset_unless_list. intros H.
  destruct (d !! k) as [x|] eqn:E; [|done].
  destruct (is_list x); [done|].
  destruct (decide (k = j)) as [->|Hne].
  - rewrite lookup_insert_eq. eauto.
  - by rewrite lookup_insert_ne.
Qed.

Lemma reset_unless_dict_keeps k d j :
  is_Some (d !! j) -> is_Some (reset_unless_dict k d !! j).
Proof.
  unfold reset_unless_dict. intros H.
  destruct (d !! k) as [x|] eqn:E; [|done].
  destruct (is_dict x); [done|].
  destruct (decide (k = j)) as [->|Hne].
  - rewrite lookup_insert_eq. eauto.
  - by rewrite lookup_insert_ne.
Qed.

Lemma set_is_guest_present d : is_Some (set_is_guest d !! "is_guest").
Proof. unfold set_is_guest. rewrite lookup_insert_eq. eauto. Qed.

Lemma set_is_guest_keeps d j : is_Some (d !! j) -> is_Some (set_is_guest d !! j).
Proof.
  unfold set_is_guest. intros H.
  destruct (decide ("is_guest" = j)) as [<-|Hne].
  - rewrite lookup_insert_eq. eauto.
  - by rewrite lookup_insert_ne.
Qed.

Lemma set_is_guest_id d : is_Some (d !! "is_guest") -> set_is_guest d = d.
Proof. unfold set_is_guest. intros [x Hx]. rewrite Hx. by apply insert_id. Qed.

Lemma set_is_guest_lookup_ne d j :
  j <> "is_guest" -> set_is_guest d !! j = d !! j.
Proof. intros H. unfold set_is_guest. by rewrite lookup_insert_ne. Qed.

Lemma reset_unless_list_holds k d :
  is_Some (d !! k) -> holds_list (reset_unless_list k d) k.
Proof.
  unfold reset_unless_list, holds_list. intros [x Hx]. rewrite Hx.
  destruct x; simpl; try (rewrite lookup_insert_eq; by eauto).
  eauto.
Qed.

Lemma reset_unless_dict_holds k d :
  is_Some (d !! k) -> holds_dict (reset_unless_dict k d) k.
Proof.
  unfold reset_unless_dict, holds_dict. intros [x Hx]. rewrite Hx.
  destruct x; simpl; try (rewrite lookup_insert_eq; by eauto).
  eauto.
Qed.

Lemma reset_unless_list_id k d : holds_list d k -> reset_unless_list k d = d.
Proof. unfold reset_unless_list. by intros [l ->]. Qed.

Lemma reset_unless_dict_id k d : holds_dict d k -> reset_unless_dict k d = d.
Proof. unfold reset_unless_dict. by intros [m ->]. Qed.

Lemma reset_unless_list_lookup_ne k d j :
  k <> j -> reset_unless_list k d !! j = d !! j.
Proof.
  intros H. unfold reset_unless_list.
  destruct (d !! k) as [x|]; [|done]. destruct (is_list x); [done|].
  by rewrite lookup_insert_ne.
Qed.

Lemma reset_unless_dict_lookup_ne k d j :
  k <> j -> reset_unless_dict k d !! j = d !! j.
Proof.
  intros H. unfold reset_unless_dict.
  destruct (d !! k) as [x|]; [|done]. destruct (is_dict x); [done|].
  by rewrite lookup_insert_ne.
Qed.

(** A value already in place survives every later step that does not
    re-check its own key. *)
Lemma holds_list_setdefault k v d j : holds_list d j -> holds_list (setdefault k v d) j.
Proof. intros [l Hl]. exists l. by apply setdefault_lookup_old. Qed.

Lemma holds_dict_setdefault k v d j : holds_dict d j -> holds_dict (setdefault k v d) j.
Proof. intros [l Hl]. exists l. by apply setdefault_lookup_old. Qed.

Lemma holds_list_reset_list k d j : holds_list d j -> holds_list (reset_unless_list k d) j.
Proof.
  intros [l Hl]. destruct (decide (k = j)) as [->|Hne].
  - rewrite reset_unless_list_id; by exists l.
  - exists l. by rewrite reset_unless_list_lookup_ne.
Qed.

Lemma holds_dict_reset_dict k d j : holds_dict d j -> holds_dict (reset_unless_dict k d) j.
Proof.
  intros [l Hl]. destruct (decide (k = j)) as [->|Hne].
  - rewrite reset_unless_dict_id; by exists l.
  - exists l. by rewrite reset_unless_dict_lookup_ne.
Qed.

Lemma holds_list_reset_dict k d j :
  k <> j -> holds_list d j -> holds_list (reset_unless_dict k d) j.
Proof. intros Hne [l Hl]. exists l. by rewrite reset_unless_dict_lookup_ne. Qed.

Lemma holds_dict_reset_list k d j :
  k <> j -> holds_dict d j -> holds_dict (reset_unless_list k d) j.
Proof. intros Hne [l Hl]. exists l. by rewrite reset_unless_list_lookup_ne. Qed.

End NormalizeFacts.

(** Walks the pipeline of [normalize_state] from the last step back to the
    step that establishes the goal. *)
Ltac present_step :=
  first [ apply setdefault_present
        | apply set_is_guest_present
        | apply setdefault_keeps
        | apply reset_unless_list_keeps
        | apply reset_unless_dict_keeps
        | apply set_is_guest_keeps ].

Ltac container_step :=
  first [ apply reset_unless_list_holds; repeat present_step
        | apply reset_unless_dict_holds; repeat present_step
        | apply holds_list_setdefault
        | apply holds_dict_setdefault
        | apply holds_list_reset_list
        | apply holds_dict_reset_dict
        | apply holds_list_reset_dict; [done|]
        | apply holds_dict_reset_list; [done|] ].

#[local] Opaque setdefault reset_unless_list reset_unless_dict set_is_guest.

(** Every field of [OrchestratorState] is present after one pass. *)
Lemma normalize_state_complete (d : dict) :
  Forall (fun k => is_Some (normalize_state d !! k)) state_fields.
Proof.
  unfold state_fields, normalize_state.
  cbv zeta. repeat (apply Forall_cons_2); [.. | apply Forall_nil_2];
    repeat present_step.
Qed.

(** The list-typed fields that are re-checked hold lists, the map-typed
    fields hold maps. *)
Lemma normalize_state_containers (d : dict) :
  Forall (holds_list (normalize_state d)) checked_list_fields
  /\ Forall (holds_dict (normalize_state d)) dict_fields.
Proof.
  unfold checked_list_fields, dict_fields, normalize_state. cbv zeta.
  split; repeat (apply Forall_cons_2); try apply Forall_nil_2.
  all: repeat container_step.
Qed.

(** A state on which [normalize_state] has nothing to do. *)
Definition normalized (d : dict) : Prop :=
  Forall (fun k => is_Some (d !! k)) state_fields
  /\ Forall (holds_list d) checked_list_fields
  /\ Forall (holds_dict d) dict_fields.

Lemma normalize_state_normalized (d : dict) : normalized (normalize_state d).
Proof.
  split; [apply normalize_state_complete | apply normalize_state_containers].
Qed.

Lemma normalize_state_fixpoint (d : dict) : normalized d -> normalize_state d = d.
Proof.
  intros (Hp & Hl & Hd).
  unfold state_fields in Hp. unfold checked_list_fields in Hl. unfold dict_fields in Hd.
  repeat (apply Forall_cons in Hp as [? Hp]).
  repeat (apply Forall_cons in Hl as [? Hl]).
  repeat (apply Forall_cons in Hd as [? Hd]).
  unfold normalize_state. cbv zeta.
  repeat first [ rewrite (setdefault_id _ _ d) by assumption
               | rewrite (set_is_guest_id d) by assumption
               | rewrite (reset_unless_list_id _ d) by assumption
               | rewrite (reset_unless_dict_id _ d) by assumption ].
  reflexivity.
Qed.

(** Normalizing twice is normalizing once. *)
Lemma normalize_state_idempotent (d : dict) :
  normalize_state (normalize_state d) = normalize_state d.
Proof. apply normalize_state_fixpoint, normalize_state_normalized. Qed.

(** Keys outside the schema, and values already present, are left alone:
    the normalizer never removes or replaces a valid field. *)
Lemma normalize_state_keeps_lists (d : dict) (k : string) (l : list value) :
  d !! k = Some (VList l) -> k <> "tool_outputs" -> k <> "metadata" -> k <> "is_guest" ->
  normalize_state d !! k = Some (VList l).
Proof.
  intros H Ht Hm Hg. unfold normalize_state. cbv zeta.
  assert (Hl : forall d', d' !! k = Some (VList l) ->
                          forall j, reset_unless_list j d' !! k = Some (VList l)).
  { intros d' Hd' j. destruct (decide (j = k)) as [->|Hne].
    - rewrite reset_unless_list_id; [done | by exists l].
    - by rewrite reset_unless_list_lookup_ne. }
  repeat first [ apply setdefault_lookup_old
               | apply Hl
               | rewrite reset_unless_dict_lookup_ne by congruence
               | rewrite set_is_guest_lookup_ne by congruence ].
  exact H.
Qed.

#[local] Transparent setdefault reset_unless_list reset_unless_dict set_is_guest.

(** C1, code at the failing input: a state whose [uploaded_doc_ids] is a
    string comes out of [normalize_state] with that string still in the
    list-typed field [uploaded_doc_ids]; the sibling list fields are reset
    to an empty list on the same kind of input. *)
Theorem C1_uploaded_doc_ids_not_rechecked :
  let bad : dict := {[ "uploaded_doc_ids" := VStr "abc" ]} in
  In "uploaded_doc_ids" list_fields
  /\ normalize_state bad !! "uploaded_doc_ids" = Some (VStr "abc")
  /\ ~ holds_list (normalize_state bad) "uploaded_doc_ids"
  /\ normalize_state {[ "uploaded_docs" := VStr "abc" ]} !! "uploaded_docs"
     = Some (VList []).
Proof.
  assert (E : normalize_state {[ "uploaded_doc_ids" := VStr "abc" ]} !! "uploaded_doc_ids"
              = Some (VStr "abc")) by (vm_compute; reflexivity).
  cbv zeta. split; [simpl; tauto|]. split; [exact E|]. split.
  - intros [l Hl]. rewrite E in Hl. discriminate.
  - vm_compute. reflexivity.
Qed.

(** ** Reasoning about [M] *)

Section Logic.

Lemma post_bind {A B} (m : M A) (f : A -> M B) w Q :
  post m w (fun r w' => match r with
                        | Ok a => post (f a) w' Q
                        | Raise e => Q (Raise e) w'
                        end) ->
  post (m ≫= f) w Q.
Proof.
  unfold post, mbind, M_bind. destruct (m w) as [[a|e] w']; simpl; auto.
Qed.

Lemma post_mret {A} (a : A) w (Q : result A -> world -> Prop) :
  Q (Ok a) w -> post (mret a) w Q.
Proof. done. Qed.

Lemma post_lift {A} (r : result A) w (Q : result A -> world -> Prop) :
  Q r w -> post (lift r) w Q.
Proof. done. Qed.

Lemma post_raise {A} e w (Q : result A -> world -> Prop) :
  Q (Raise e) w -> post (raise e) w Q.
Proof. done. Qed.

Lemma post_set k v w (Q : result unit -> world -> Prop) :
  Q (Ok tt) (World (<[k := v]> (w_state w)) (w_log w)) -> post (set k v) w Q.
Proof. done. Qed.

Lemma post_update f w (Q : result unit -> world -> Prop) :
  Q (Ok tt) (World (f (w_state w)) (w_log w)) -> post (update f) w Q.
Proof. done. Qed.

Lemma post_emit ev w (Q : result unit -> world -> Prop) :
  Q (Ok tt) (World (w_state w) (w_log w ++ [ev])) -> post (emit ev) w Q.
Proof. done. Qed.

Lemma post_get k w (Q : result (option value) -> world -> Prop) :
  Q (Ok (w_state w !! k)) w -> post (get k) w Q.
Proof. done. Qed.

Lemma post_get_or k d w (Q : result value -> world -> Prop) :
  Q (Ok (default d (w_state w !! k))) w -> post (get_or k d) w Q.
Proof. done. Qed.

Lemma post_attempt {A} (m : M A) w (Q : result (result A) -> world -> Prop) :
  post m w (fun r w' => Q (Ok r) w') -> post (attempt m) w Q.
Proof. unfold post, attempt. by destruct (m w). Qed.

Lemma post_try_except {A} (m : M A) h w (Q : result A -> world -> Prop) :
  post m w (fun r w' => match r with
                        | Ok a => Q (Ok a) w'
                        | Raise e => post (h e) w' Q
                        end) ->
  post (try_except m h) w Q.
Proof. unfold post, try_except. by destruct (m w) as [[a|e] w']. Qed.

Lemma post_mono {A} (m : M A) w (P Q : result A -> world -> Prop) :
  post m w P -> (forall r w', P r w' -> Q r w') -> post m w Q.
Proof. unfold post. auto. Qed.

Lemma post_and {A} (m : M A) w (P Q : result A -> world -> Prop) :
  post m w P -> post m w Q -> post m w (fun r w' => P r w' /\ Q r w').
Proof. unfold post. auto. Qed.

Lemma post_append_to k x l w (Q : result unit -> world -> Prop) :
  w_state w !! k = Some (VList l) ->
  Q (Ok tt) (World (<[k := VList (l ++ [x])]> (w_state w)) (w_log w)) ->
  post (append_to k x) w Q.
Proof.
  intros Hk HQ. unfold post, append_to, get_item, mbind, M_bind. by rewrite Hk.
Qed.

Lemma post_set_metadata k x d w (Q : result unit -> world -> Prop) :
  w_state w !! "metadata" = Some (VDict d) ->
  Q (Ok tt) (World (<["metadata" := VDict (<[k := x]> d)]> (w_state w)) (w_log w)) ->
  post (set_metadata k x) w Q.
Proof.
  intros Hk HQ. unfold post, set_metadata, get_or, lift, set, mbind, M_bind.
  by rewrite Hk.
Qed.

Lemma modifies_bind {A B} ks (m : M A) (f : A -> M B) :
  modifies ks m -> (forall a, modifies ks (f a)) -> modifies ks (m ≫= f).
Proof.
  intros Hm Hf w k Hk. specialize (Hm w k Hk).
  unfold mbind, M_bind. destruct (m w) as [[a|e] w'] eqn:E; simpl in *.
  - by rewrite Hf.
  - done.
Qed.

Lemma modifies_pure {A} ks (m : M A) :
  (forall w, (m w).2 = w) -> modifies ks m.
Proof. intros Hm w k _. by rewrite Hm. Qed.

Lemma modifies_mret {A} ks (a : A) : modifies ks (mret a).
Proof. by apply modifies_pure. Qed.

Lemma modifies_lift {A} ks (r : result A) : modifies ks (lift r).
Proof. by apply modifies_pure. Qed.

Lemma modifies_raise {A} ks e : modifies ks (@raise A e).
Proof. by apply modifies_pure. Qed.

Lemma modifies_get ks k : modifies ks (get k).
Proof. by apply modifies_pure. Qed.

Lemma modifies_get_or ks k d : modifies ks (get_or k d).
Proof. by apply modifies_pure. Qed.

Lemma modifies_get_item ks k : modifies ks (get_item k).
Proof. apply modifies_pure. intros w. unfold get_item. by destruct (w_state w !! k). Qed.

Lemma modifies_emit ks ev : modifies ks (emit ev).
Proof. by intros w k _. Qed.

Lemma modifies_set ks k v : k ∈ ks -> modifies ks (set k v).
Proof.
  intros Hin w j Hj. unfold set. simpl.
  rewrite lookup_insert_ne; [done | by intros ->].
Qed.

Lemma modifies_update ks (f : dict -> dict) :
  (forall s k, k ∉ ks -> f s !! k = s !! k) -> modifies ks (update f).
Proof. intros Hf w k Hk. by apply Hf. Qed.

Lemma modifies_attempt {A} ks (m : M A) : modifies ks m -> modifies ks (attempt m).
Proof.
  intros Hm w k Hk. specialize (Hm w k Hk). unfold attempt.
  by destruct (m w).
Qed.

Lemma modifies_try_except {A} ks (m : M A) h :
  modifies ks m -> (forall e, modifies ks (h e)) -> modifies ks (try_except m h).
Proof.
  intros Hm Hh w k Hk. specialize (Hm w k Hk). unfold try_except.
  destruct (m w) as [[a|e] w'] eqn:E; simpl in *; [done|].
  by rewrite Hh.
Qed.

Lemma modifies_append_to ks k x : k ∈ ks -> modifies ks (append_to k x).
Proof.
  intros Hin. apply modifies_bind; [apply modifies_get_item|].
  intros [] ; try apply modifies_raise. by apply modifies_set.
Qed.

Lemma modifies_set_metadata ks k x : "metadata" ∈ ks -> modifies ks (set_metadata k x).
Proof.
  intros Hin. apply modifies_bind; [apply modifies_get_or|]. intros md.
  apply modifies_bind; [apply modifies_lift|]. intros md'. by apply modifies_set.
Qed.

End Logic.


(** ** The model router *)

Section InvokeFacts.
Context `{Backends}.

Lemma invoke_primary_ok self msgs t w r :
  primary_invoke msgs t = Ok r ->
  invoke self msgs t w
  = (Ok r, World (<["fallback_reason" := VNone]>
                    (<["model_used" := VStr (primary_model self)]> (w_state w)))
                 (w_log w ++ [EvPrimary])).
Proof.
  intros Hp. unfold invoke, try_except, call_primary, emit, lift, set.
  unfold mbind, M_bind, mret, M_ret. simpl. by rewrite Hp.
Qed.

(** An exception that is not retried leaves [invoke] as it came out of the
    primary backend, with the state untouched and one call logged. *)
Lemma invoke_propagates self msgs t w e :
  primary_invoke msgs t = Raise e ->
  enable_fallback self && _is_quota_exhausted_429 e = false ->
  invoke self msgs t w = (Raise e, World (w_state w) (w_log w ++ [EvPrimary])).
Proof.
  intros Hp Hq. unfold invoke, try_except, call_primary, emit, lift, raise.
  unfold mbind, M_bind. simpl. by rewrite Hp, Hq.
Qed.

(** A retried exception: the secondary backend is called once, after the
    primary, and nothing else is called. *)
Lemma invoke_falls_back self msgs t w e :
  primary_invoke msgs t = Raise e ->
  enable_fallback self && _is_quota_exhausted_429 e = true ->
  w_log (invoke self msgs t w).2 = w_log w ++ [EvPrimary; EvFallback]
  /\ (forall e', fallback_invoke msgs t = Raise e' ->
                 invoke self msgs t w
                 = (Raise e', World (w_state w) (w_log w ++ [EvPrimary; EvFallback])))
  /\ (forall r, fallback_invoke msgs t = Ok r ->
                (forall v, w_state w !! "metadata" = Some v -> truthy v = true -> is_dict v = true) ->
                (invoke self msgs t w).1 = Ok r).
Proof.
  intros Hp Hq. unfold invoke, try_except, call_primary, call_fallback, emit, lift, raise, set, get.
  unfold mbind, M_bind, mret, M_ret. simpl. rewrite Hp, Hq. simpl.
  rewrite <- !app_assoc. simpl.
  destruct (fallback_invoke msgs t) as [r|e'] eqn:Hf; simpl.
  - rewrite !lookup_insert_ne by done.
    split; [|split]; [| intros; discriminate |].
    + destruct (py_setitem _ _ _); reflexivity.
    + intros r' [= <-] Hmd. unfold py_or.
      destruct (w_state w !! "metadata") as [v|] eqn:Hv; simpl.
      * destruct (truthy v) eqn:Ht; [|reflexivity].
        specialize (Hmd v eq_refl Ht). destruct v; try discriminate. reflexivity.
      * reflexivity.
  - split; [reflexivity|]. split; [|intros; discriminate].
    by intros e'' [= <-].
Qed.

End InvokeFacts.

(** C6 as stated fails: a router built with [enable_fallback = False]
    gets the quota signal from the primary backend and does not retry; the
    secondary backend is never invoked and the exception propagates. *)
Lemma C6_quota_without_fallback_propagates :
  _is_quota_exhausted_429 quota_error = true
  /\ @invoke out_of_quota no_fallback_router [] 0.7 empty_world
     = (Raise quota_error, World ∅ [EvPrimary])
  /\ ~ In EvFallback (w_log (@invoke out_of_quota no_fallback_router [] 0.7 empty_world).2).
Proof.
  split; [reflexivity|]. split; [reflexivity|].
  simpl. intros [E|[]]. discriminate.
Qed.

(** C6, amended: when the primary backend raises, [invoke] calls the
    secondary backend, exactly once, if and only if fallback is enabled
    and the exception carries the quota signal (class [ResourceExhausted]
    or the 429/quota markers in its message); every other exception, and
    every exception when fallback is disabled, propagates unmodified with
    the secondary backend never invoked and the state untouched. *)
Theorem C6_fallback_only_on_quota_when_enabled
    `{Backends} (self : LLMRouter) (msgs : prompt) (t : Q) (w : world) (e : exn) :
  primary_invoke msgs t = Raise e ->
  (enable_fallback self && _is_quota_exhausted_429 e = true ->
     w_log (invoke self msgs t w).2 = w_log w ++ [EvPrimary; EvFallback])
  /\ (enable_fallback self && _is_quota_exhausted_429 e = false ->
     invoke self msgs t w = (Raise e, World (w_state w) (w_log w ++ [EvPrimary]))).
Proof.
  intros Hp. split; intros Hq.
  - by apply (invoke_falls_back self msgs t w e Hp Hq).
  - by apply invoke_propagates.
Qed.

Lemma C6_fallback_only_on_quota_when_enabled_witness :
  @primary_invoke out_of_quota [] 0.7 = Raise quota_error
  /\ w_log (@invoke out_of_quota default_router [] 0.7 empty_world).2
     = [EvPrimary; EvFallback]
  /\ @invoke broken_primary default_router [] 0.7 empty_world
     = (Raise server_error, World ∅ [EvPrimary]).
Proof.
  split; [reflexivity|]. split.
  - apply (@C6_fallback_only_on_quota_when_enabled out_of_quota default_router
             [] 0.7 empty_world quota_error); reflexivity.
  - apply (@C6_fallback_only_on_quota_when_enabled broken_primary default_router
             [] 0.7 empty_world server_error); reflexivity.
Defined.

(** ** The intent classifier *)

Section EnsureFacts.
Implicit Types (s : dict) (k : string).

Lemma ensure_metadata_holds s : holds_dict (ensure_metadata s) "metadata".
Proof.
  unfold ensure_metadata, holds_dict.
  destruct (s !! "metadata") as [[]|] eqn:E; rewrite ?lookup_insert_eq; eauto.
Qed.

Lemma ensure_errors_holds s : holds_list (ensure_errors s) "errors".
Proof.
  unfold ensure_errors, holds_list.
  destruct (s !! "errors") as [[]|] eqn:E; rewrite ?lookup_insert_eq; eauto.
Qed.

Lemma ensure_metadata_lookup_ne s k : k <> "metadata" -> ensure_metadata s !! k = s !! k.
Proof.
  intros Hk. unfold ensure_metadata.
  destruct (s !! "metadata") as [[]|]; rewrite ?lookup_insert_ne; done.
Qed.

Lemma ensure_errors_lookup_ne s k : k <> "errors" -> ensure_errors s !! k = s !! k.
Proof.
  intros Hk. unfold ensure_errors.
  destruct (s !! "errors") as [[]|]; rewrite ?lookup_insert_ne; done.
Qed.

Lemma ensure_intent_lookup_ne s k :
  k <> "intent" -> k <> "intent_confidence" -> ensure_intent s !! k = s !! k.
Proof.
  intros Hk Hk'. unfold ensure_intent.
  destruct (s !! "intent") as [[]|]; rewrite ?lookup_insert_ne; done.
Qed.

Lemma ensure_metadata_id s : holds_dict s "metadata" -> ensure_metadata s = s.
Proof. unfold ensure_metadata. by intros [d ->]. Qed.

Lemma ensure_errors_id s : holds_list s "errors" -> ensure_errors s = s.
Proof. unfold ensure_errors. by intros [d ->]. Qed.

End EnsureFacts.

Create HintDb keys.
Ltac not_in_keys :=
  autounfold with keys; rewrite !not_elem_of_cons; intros; intuition congruence.
Ltac in_keys :=
  autounfold with keys;
  repeat first [ apply list_elem_of_here | apply list_elem_of_further ].

Section ClassifyFacts.
Context `{Backends} `{ClassifierEnv}.

Lemma invoke_modifies self msgs t :
  modifies ["model_used"; "fallback_reason"; "metadata"] (invoke self msgs t).
Proof.
  unfold invoke. apply modifies_try_except.
  - repeat (apply modifies_bind; [|intros ?]);
      first [ apply modifies_emit | apply modifies_lift | apply modifies_mret
            | apply modifies_set; in_keys ].
  - intros e. destruct (negb _); [apply modifies_raise|].
    repeat (apply modifies_bind; [|intros ?]);
      first [ apply modifies_emit | apply modifies_lift | apply modifies_mret
            | apply modifies_get | apply modifies_set; in_keys ].
Qed.

(** The router keeps a metadata dict a dict. *)
Lemma invoke_keeps_metadata self msgs t w :
  holds_dict (w_state w) "metadata" ->
  holds_dict (w_state (invoke self msgs t w).2) "metadata".
Proof.
  intros [d Hd]. unfold invoke, try_except, call_primary, call_fallback, emit, lift, raise, set, get.
  unfold mbind, M_bind, mret, M_ret. simpl.
  destruct (primary_invoke msgs t) as [r|e]; simpl.
  - exists d. by rewrite !lookup_insert_ne.
  - destruct (negb _); simpl; [by exists d|].
    destruct (fallback_invoke msgs t) as [r|e']; simpl; [|by exists d].
    rewrite !lookup_insert_ne by done. rewrite Hd. simpl.
    unfold py_or. destruct (truthy (VDict d)); simpl;
      eexists; apply lookup_insert_eq.
Qed.

#[local] Hint Unfold classify_keys : keys.

Ltac modifies_step :=
  first [ apply modifies_emit | apply modifies_lift | apply modifies_mret
        | apply modifies_get | apply modifies_get_or | apply modifies_raise
        | apply modifies_set; in_keys
        | apply modifies_set_metadata; in_keys
        | apply modifies_append_to; in_keys ].

Lemma set_unknown_modifies reasoning : modifies classify_keys (set_unknown reasoning).
Proof.
  unfold set_unknown. repeat (apply modifies_bind; [|intros ?]); modifies_step.
Qed.

Lemma modifies_weaken {A} ks ks' (m : M A) :
  ks ⊆ ks' -> modifies ks m -> modifies ks' m.
Proof. intros Hs Hm w k Hk. apply Hm. intros Hin. apply Hk, Hs, Hin. Qed.

Lemma classify_modifies self : modifies classify_keys (classify self).
Proof.
  unfold classify.
  apply modifies_bind; [apply modifies_update; intros s k Hk;
                        apply ensure_metadata_lookup_ne; revert Hk; not_in_keys|intros _].
  apply modifies_bind; [apply modifies_update; intros s k Hk;
                        apply ensure_errors_lookup_ne; revert Hk; not_in_keys|intros _].
  apply modifies_bind; [apply modifies_update; intros s k Hk;
                        apply ensure_intent_lookup_ne; revert Hk; not_in_keys|intros _].
  do 3 (apply modifies_bind; [modifies_step|intros ?]).
  apply modifies_bind.
  { destruct (truthy _); [|modifies_step].
    repeat (apply modifies_bind; [|intros ?]); modifies_step. }
  intros part. apply modifies_bind; [modifies_step|intros query].
  destruct (negb _); [apply set_unknown_modifies|].
  apply modifies_bind; [apply modifies_attempt; modifies_step|intros [messages|e]].
  2:{ apply modifies_bind; [modifies_step|intros _]. apply set_unknown_modifies. }
  apply modifies_bind.
  { apply modifies_attempt. eapply modifies_weaken; [|apply invoke_modifies].
    intros k. unfold classify_keys. rewrite !elem_of_cons. intuition. }
  intros [response|e].
  2:{ apply modifies_bind; [modifies_step|intros _]. apply set_unknown_modifies. }
  destruct (content response) as [[]|]; try apply set_unknown_modifies.
  destruct (json_parse s) as [parsed|e]; [|apply set_unknown_modifies].
  repeat (apply modifies_bind; [|intros ?]); modifies_step.
Qed.

End ClassifyFacts.

Section ClassifySpec.
Context `{Backends} `{ClassifierEnv}.

Lemma py_eqb_str_inv v i : py_eqb v (VStr i) = true -> v = VStr i.
Proof.
  destruct v; simpl; try discriminate.
  intros E. apply String.eqb_eq in E. by subst.
Qed.

Lemma not_in_valid_intents_false v :
  not_in_valid_intents v = Ok false -> exists i, v = VStr i /\ In i valid_intents.
Proof.
  unfold not_in_valid_intents. intros Hb.
  destruct v as [| | | |s| |]; try (cbv in Hb; discriminate).
  assert (Hx : negb (existsb (fun i => py_eqb (VStr s) (VStr i)) valid_intents) = false)
    by congruence.
  apply negb_false_iff, existsb_exists in Hx. destruct Hx as (i & Hi & Heq).
  apply py_eqb_str_inv in Heq. eauto.
Qed.

Lemma post_finish intent c reasoning i w :
  holds_dict (w_state w) "metadata" ->
  intent = VStr i -> In i valid_intents ->
  (c = 0%Q \/ c = 0.5%Q \/ reported c) ->
  post (set "intent" intent;;
        set "intent_confidence" (VFloat c);;
        set_metadata "intent_reasoning" (VStr reasoning)) w classified.
Proof.
  intros [d Hd] -> Hi Hc.
  apply post_bind, post_set. apply post_bind, post_set.
  eapply post_set_metadata.
  { simpl. rewrite !lookup_insert_ne by done. exact Hd. }
  split; [done|]. exists i, c. simpl.
  rewrite lookup_insert_ne, lookup_insert_ne, lookup_insert_eq by done.
  rewrite lookup_insert_ne, lookup_insert_eq by done. auto.
Qed.

Lemma post_set_unknown reasoning w :
  holds_dict (w_state w) "metadata" ->
  post (set_unknown reasoning) w classified.
Proof.
  intros Hd. unfold set_unknown.
  apply (post_finish _ _ _ "unknown"); auto. simpl. tauto.
Qed.

Lemma holds_dict_insert_ne s k j v :
  k <> j -> holds_dict s j -> holds_dict (<[k := v]> s) j.
Proof. intros Hne [d Hd]. exists d. by rewrite lookup_insert_ne. Qed.

Lemma classify_post self w :
  docs_are_lists (w_state w) -> replies_are_objects ->
  post (classify self) w classified.
Proof.
  intros Hdocs Hobj. unfold classify.
  apply post_bind, post_update. apply post_bind, post_update. apply post_bind, post_update.
  simpl w_state. simpl w_log.
  remember (ensure_intent (ensure_errors (ensure_metadata (w_state w)))) as s1 eqn:Es1.
  assert (Hmd : holds_dict s1 "metadata").
  { destruct (ensure_metadata_holds (w_state w)) as [d Hd]. exists d. subst s1.
    rewrite ensure_intent_lookup_ne, ensure_errors_lookup_ne by done. exact Hd. }
  assert (Herr : holds_list s1 "errors").
  { destruct (ensure_errors_holds (ensure_metadata (w_state w))) as [l Hl]. exists l.
    subst s1. rewrite ensure_intent_lookup_ne by done. exact Hl. }
  assert (Hs1 : forall k, k ∈ ["uploaded_docs"; "workspace_documents"] ->
                          s1 !! k = w_state w !! k).
  { intros k Hk. subst s1.
    rewrite ensure_intent_lookup_ne, ensure_errors_lookup_ne, ensure_metadata_lookup_ne; [done|..];
      intros ->; revert Hk; rewrite !elem_of_cons, elem_of_nil; intuition congruence. }
  clear Es1.
  apply post_bind, post_get_or. apply post_bind, post_get_or. apply post_bind, post_get_or.
  simpl w_state.
  apply post_bind.
  apply (post_mono _ _ (fun r w' => w' = World s1 (w_log w) /\ exists part, r = Ok part)).
  { destruct (truthy _); [|by split; [|eexists]].
    assert (Hlen : forall k, k ∈ ["uploaded_docs"; "workspace_documents"] ->
                             exists n, py_len (default (VList []) (s1 !! k)) = Ok n).
    { intros k Hk. rewrite (Hs1 k Hk).
      destruct (w_state w !! k) as [v|] eqn:Ev; simpl; [|by eexists].
      specialize (Hdocs k v Hk Ev). destruct v; try discriminate. simpl. by eexists. }
    destruct (Hlen "uploaded_docs") as [n1 Hn1]; [set_solver|].
    destruct (Hlen "workspace_documents") as [n2 Hn2]; [set_solver|].
    apply post_bind. rewrite Hn1. apply post_lift.
    apply post_bind. rewrite Hn2. apply post_lift.
    apply post_mret. split; [done|by eexists]. }
  intros r w' [-> [part ->]].
  apply post_bind, post_get_or. simpl w_state.
  destruct (negb _); [by apply post_set_unknown|].
  apply post_bind, post_attempt, post_lift.
  destruct (format_messages _ _ _) as [messages|e].
  2:{ destruct Herr as [l Hl].
      apply post_bind. eapply post_append_to; [exact Hl|].
      apply post_set_unknown. simpl. by apply holds_dict_insert_ne. }
  apply post_bind, post_attempt.
  apply (post_mono _ _ (fun r w' => holds_dict (w_state w') "metadata"
                                    /\ holds_list (w_state w') "errors")).
  { split.
    - by apply (invoke_keeps_metadata _ _ _ (World s1 (w_log w))).
    - destruct Herr as [l Hl]. exists l.
      rewrite (invoke_modifies _ _ _ (World s1 (w_log w))); [exact Hl|].
      rewrite !not_elem_of_cons, elem_of_nil. intuition congruence. }
  intros [response|e] w' [Hmd' Herr'].
  2:{ destruct Herr' as [l Hl].
      apply post_bind. eapply post_append_to; [exact Hl|].
      apply post_set_unknown. simpl. by apply holds_dict_insert_ne. }
  destruct (content response) as [[]|]; try by apply post_set_unknown.
  destruct (json_parse s) as [parsed|e] eqn:Hparse; [|by apply post_set_unknown].
  destruct (Hobj _ _ Hparse) as (d & -> & Hhash).
  apply post_bind, post_lift. apply post_bind, post_lift.
  simpl py_get.
  destruct (float_or_half (default (VFloat 0.5) (d !! "confidence"))) as [c|e] eqn:Hc.
  2:{ exfalso. unfold float_or_half in Hc.
      destruct (py_float _) as [q|e'] eqn:Hf; [discriminate|].
      unfold py_float in Hf.
      destruct (default (VFloat 0.5) (d !! "confidence")); try discriminate;
        try (injection Hf as <-; simpl in Hc; discriminate).
      destruct (float_of_str s0); [discriminate|].
      injection Hf as <-. simpl in Hc. discriminate. }
  apply post_bind, post_lift. rewrite Hc.
  apply post_bind, post_lift.
  set (intent := py_or (default VNone (d !! "intent")) (VStr "unknown")).
  assert (Hni : exists b, not_in_valid_intents intent = Ok b).
  { subst intent. unfold py_or.
    destruct (d !! "intent") as [x|] eqn:Hx; simpl.
    - destruct (Hhash x eq_refl) as [Hl Hd].
      destruct (truthy x); [|by eexists].
      destruct x; try discriminate; by eexists.
    - by eexists. }
  destruct Hni as [b Hb]. rewrite Hb.
  apply post_bind, post_lift.
  destruct b.
  - apply (post_finish _ _ _ "unknown"); auto. simpl. tauto.
  - assert (Hin : exists i, intent = VStr i /\ In i valid_intents).
    { by apply not_in_valid_intents_false. }
    destruct Hin as (i & Hi & Hin).
    apply (post_finish _ _ _ i); auto.
    unfold float_or_half in Hc.
    destruct (d !! "confidence") as [v|] eqn:Hv; simpl in Hc.
    + destruct (py_float v) as [q|e'] eqn:Hf.
      * injection Hc as <-. right. right. exists s, d, v. auto.
      * destruct (_ || _); [|discriminate]. injection Hc as <-. auto.
    + injection Hc as <-. auto.
Qed.

End ClassifySpec.

(** The reply [{intent: rag, confidence: 5}], as the JSON parser hands it
    over. *)
Definition reply_confidence_5 : value :=
  VDict {[ "intent" := VStr "rag"; "confidence" := VInt 5 ]}.

Definition reply_sql_09 : value :=
  VDict {[ "intent" := VStr "sql"; "confidence" := VFloat 0.9;
           "reasoning" := VStr "asks for rows" ]}.

(** C2 as stated fails: [classify] passes the confidence of the reply
    through [float] and stores it unclamped; a reply with confidence 5
    leaves [intent_confidence = 5.0], outside [0,1]. *)
Lemma C2_confidence_not_clamped :
  let out := @classify (answering "reply") (reply_env (Ok reply_confidence_5))
                       default_intent_router (asking "find the report") in
  out.1 = Ok tt
  /\ w_state out.2 !! "intent" = Some (VStr "rag")
  /\ w_state out.2 !! "intent_confidence" = Some (VFloat 5)
  /\ ~ (5 <= 1)%Q.
Proof.
  cbv zeta. split; [vm_compute; reflexivity|].
  split; [vm_compute; reflexivity|].
  split; [vm_compute; reflexivity|].
  intros Hle. vm_compute in Hle. apply Hle. reflexivity.
Qed.

(** C2, amended: on a state whose document fields hold lists (as after
    normalization), and with a backend whose replies, when they parse,
    parse to a JSON object with a hashable label, [classify] returns
    without raising; the intent it leaves is a member of the closed set;
    the confidence it leaves is a float: 0.0 on every degraded path and for
    a label outside the set, otherwise [float] of the reported confidence,
    0.5 when that is absent or not numeric.  It lies in [0,1] whenever the
    reported confidences do. *)
Theorem C2_classify_returns_closed_intent
    `{Backends} `{ClassifierEnv} (self : IntentRouter) (w : world) :
  docs_are_lists (w_state w) ->
  replies_are_objects ->
  exists w' i c,
    classify self w = (Ok tt, w')
    /\ w_state w' !! "intent" = Some (VStr i) /\ In i valid_intents
    /\ w_state w' !! "intent_confidence" = Some (VFloat c)
    /\ (c = 0%Q \/ c = 0.5%Q \/ reported c)
    /\ ((forall q, reported q -> (0 <= q <= 1)%Q) -> (0 <= c <= 1)%Q).
Proof.
  intros Hdocs Hobj.
  destruct (classify_post self w Hdocs Hobj) as (Hr & i & c & Hi & Hin & Hc & Horigin).
  exists (classify self w).2, i, c.
  split. { destruct (classify self w) as [r w'] eqn:E. simpl in Hr. by subst r. }
  split; [exact Hi|]. split; [exact Hin|]. split; [exact Hc|]. split; [exact Horigin|].
  intros Hrange. destruct Horigin as [-> | [-> | Hrep]]; [done | done | auto].
Qed.

Lemma checked_lists_docs_are_lists (s : dict) :
  Forall (holds_list s) checked_list_fields -> docs_are_lists s.
Proof.
  intros Hl k v Hk Hv. unfold checked_list_fields in Hl.
  repeat (apply Forall_cons in Hl as [? Hl]).
  apply elem_of_cons in Hk as [->|Hk];
    [|apply elem_of_cons in Hk as [->|Hk]; [|by apply elem_of_nil in Hk]].
  - destruct H1 as [l Hkl]. rewrite Hkl in Hv. by injection Hv as <-.
  - destruct H2 as [l Hkl]. rewrite Hkl in Hv. by injection Hv as <-.
Qed.

Lemma asking_docs_are_lists q : docs_are_lists (w_state (asking q)).
Proof.
  apply checked_lists_docs_are_lists.
  exact (proj1 (normalize_state_containers {[ "user_query" := VStr q ]})).
Qed.

Lemma C2_classify_returns_closed_intent_witness :
  exists w' i c,
    @classify (answering "reply") (reply_env (Ok reply_sql_09))
              default_intent_router (asking "how many orders last year")
    = (Ok tt, w')
    /\ w_state w' !! "intent" = Some (VStr i) /\ In i valid_intents
    /\ w_state w' !! "intent_confidence" = Some (VFloat c)
    /\ (c = 0%Q \/ c = 0.5%Q \/ @reported (reply_env (Ok reply_sql_09)) c)
    /\ ((forall q, @reported (reply_env (Ok reply_sql_09)) q -> (0 <= q <= 1)%Q)
        -> (0 <= c <= 1)%Q).
Proof.
  apply (@C2_classify_returns_closed_intent (answering "reply")
           (reply_env (Ok reply_sql_09)) default_intent_router
           (asking "how many orders last year")).
  - apply asking_docs_are_lists.
  - intros text v Hv. injection Hv as <-. eexists. split; [reflexivity|].
    intros x Hx. vm_compute in Hx. injection Hx as <-. split; reflexivity.
Defined.

(** The degraded paths named in the claim, run on stand-in backends:
    empty query, a backend that raises, a reply that is not JSON, a label
    outside the closed set, a confidence that is not a number. *)
Example classify_empty_query :
  let out := @classify (answering "reply") (reply_env (Ok reply_sql_09))
                       default_intent_router (asking "") in
  (out.1, w_state out.2 !! "intent", w_state out.2 !! "intent_confidence", w_log out.2)
  = (Ok tt, Some (VStr "unknown"), Some (VFloat 0), []).
Proof. vm_compute. reflexivity. Qed.

Example classify_backend_raises :
  let out := @classify broken_primary (reply_env (Ok reply_sql_09))
                       default_intent_router (asking "hello") in
  (out.1, w_state out.2 !! "intent", w_state out.2 !! "intent_confidence",
   w_state out.2 !! "errors")
  = (Ok tt, Some (VStr "unknown"), Some (VFloat 0),
     Some (VList [VStr "LLM invocation error: 500 internal error"])).
Proof. vm_compute. reflexivity. Qed.

Example classify_not_json :
  let out := @classify (answering "sorry, no idea")
                       (reply_env (Raise (Exn "OutputParserException" "Invalid json output")))
                       default_intent_router (asking "hello") in
  (out.1, w_state out.2 !! "intent", w_state out.2 !! "intent_confidence",
   w_state out.2 !! "errors")
  = (Ok tt, Some (VStr "unknown"), Some (VFloat 0), Some (VList [])).
Proof. vm_compute. reflexivity. Qed.

Example classify_label_outside_set :
  let reply := VDict {[ "intent" := VStr "weather"; "confidence" := VFloat 0.9 ]} in
  let out := @classify (answering "reply") (reply_env (Ok reply))
                       default_intent_router (asking "hello") in
  (out.1, w_state out.2 !! "intent", w_state out.2 !! "intent_confidence")
  = (Ok tt, Some (VStr "unknown"), Some (VFloat 0)).
Proof. vm_compute. reflexivity. Qed.

Example classify_confidence_not_numeric :
  let reply := VDict {[ "intent" := VStr "chat"; "confidence" := VStr "high" ]} in
  let out := @classify (answering "reply") (reply_env (Ok reply))
                       default_intent_router (asking "hello") in
  (out.1, w_state out.2 !! "intent", w_state out.2 !! "intent_confidence")
  = (Ok tt, Some (VStr "chat"), Some (VFloat 0.5)).
Proof. vm_compute. reflexivity. Qed.

(** Outside the amended claim: a reply that parses to a JSON array has no
    [get], and the [AttributeError] leaves [classify]. *)
Example classify_array_reply_raises :
  (@classify (answering "reply") (reply_env (Ok (VList [VInt 1])))
             default_intent_router (asking "hello")).1
  = Raise (AttributeError "object has no attribute 'get'").
Proof. vm_compute. reflexivity. Qed.

(** ** More on the normalizer *)

Section NormalizeMore.
Implicit Types (d : dict) (k j : string) (v : value).

Lemma setdefault_lookup_ne k v d j : k <> j -> setdefault k v d !! j = d !! j.
Proof.
  intros Hne. unfold setdefault. destruct (d !! k); [done|].
  by rewrite lookup_insert_ne.
Qed.

Lemma set_is_guest_lookup_old d k v : d !! k = Some v -> set_is_guest d !! k = Some v.
Proof.
  intros Hk. unfold set_is_guest.
  destruct (decide ("is_guest" = k)) as [<-|Hne].
  - by rewrite lookup_insert_eq, Hk.
  - by rewrite lookup_insert_ne.
Qed.

Lemma reset_unless_list_lookup_old j d k v :
  d !! k = Some v -> (j = k -> is_list v = true) -> reset_unless_list j d !! k = Some v.
Proof.
  intros Hk Hl. destruct (decide (j = k)) as [->|Hne].
  - unfold reset_unless_list. rewrite Hk. by rewrite Hl.
  - by rewrite reset_unless_list_lookup_ne.
Qed.

Lemma reset_unless_dict_lookup_old j d k v :
  d !! k = Some v -> (j = k -> is_dict v = true) -> reset_unless_dict j d !! k = Some v.
Proof.
  intros Hk Hl. destruct (decide (j = k)) as [->|Hne].
  - unfold reset_unless_dict. rewrite Hk. by rewrite Hl.
  - by rewrite reset_unless_dict_lookup_ne.
Qed.

End NormalizeMore.

#[local] Opaque setdefault reset_unless_list reset_unless_dict set_is_guest.

Lemma normalize_state_lookup_old (d : dict) (k : string) (v : value) :
  d !! k = Some v ->
  (k ∈ checked_list_fields -> is_list v = true) ->
  (k ∈ dict_fields -> is_dict v = true) ->
  normalize_state d !! k = Some v.
Proof.
  intros Hk Hl Hd. unfold normalize_state. cbv zeta.
  repeat first
    [ apply setdefault_lookup_old
    | apply set_is_guest_lookup_old
    | apply reset_unless_list_lookup_old;
      [| intros <-; apply Hl; unfold checked_list_fields; set_solver ]
    | apply reset_unless_dict_lookup_old;
      [| intros <-; apply Hd; unfold dict_fields; set_solver ] ].
  exact Hk.
Qed.

Lemma normalize_state_is_guest (d : dict) :
  d !! "is_guest" = None ->
  normalize_state d !! "is_guest"
  = Some (VBool (match d !! "user_id" with
                 | Some u => py_eqb u (VStr "guest")
                 | None => true
                 end)).
Proof.
  intros Hg. unfold normalize_state. cbv zeta.
  repeat first [ rewrite (setdefault_lookup_ne _ _ _ "is_guest") by done
               | rewrite (reset_unless_list_lookup_ne _ _ "is_guest") by done
               | rewrite (reset_unless_dict_lookup_ne _ _ "is_guest") by done ].
  #[local] Transparent set_is_guest setdefault.
  unfold set_is_guest. rewrite lookup_insert_eq.
  rewrite !setdefault_lookup_ne by done. rewrite Hg. f_equal. f_equal.
  unfold eq_str. unfold setdefault at 1.
  rewrite setdefault_lookup_ne by done.
  destruct (d !! "user_id") as [u|] eqn:Hu.
  - rewrite setdefault_lookup_ne by done. by rewrite Hu.
  - by rewrite lookup_insert_eq.
Qed.

#[local] Transparent setdefault reset_unless_list reset_unless_dict set_is_guest.

(** X1: normalizing a state twice gives the state normalized once. *)
Theorem X1_normalize_state_idempotent (d : dict) :
  normalize_state (normalize_state d) = normalize_state d.
Proof. apply normalize_state_fixpoint, normalize_state_normalized. Qed.

(** X2: after one pass every field of [OrchestratorState] is present, the
    five list fields the normalizer re-checks ([messages], [chat_history],
    [uploaded_docs], [workspace_documents], [errors]) hold lists and
    [tool_outputs] and [metadata] hold dicts, whatever the input held. *)
Theorem X2_normalize_state_complete (d : dict) :
  Forall (fun k => is_Some (normalize_state d !! k)) state_fields
  /\ Forall (holds_list (normalize_state d)) checked_list_fields
  /\ Forall (holds_dict (normalize_state d)) dict_fields.
Proof.
  split; [apply normalize_state_complete | apply normalize_state_containers].
Qed.

(** X3: the normalizer never removes or replaces a valid entry: a key,
    known or not, keeps its value unless it is one of the re-checked list
    fields holding a non-list or one of the two dict fields holding a
    non-dict. *)
Theorem X3_normalize_state_keeps_valid_entries (d : dict) (k : string) (v : value) :
  d !! k = Some v ->
  (k ∈ checked_list_fields -> is_list v = true) ->
  (k ∈ dict_fields -> is_dict v = true) ->
  normalize_state d !! k = Some v.
Proof. apply normalize_state_lookup_old. Qed.

Lemma X3_normalize_state_keeps_valid_entries_witness :
  normalize_state {[ "custom_flag" := VInt 7; "messages" := VList [VStr "m"] ]} !! "messages"
  = Some (VList [VStr "m"])
  /\ normalize_state {[ "custom_flag" := VInt 7; "messages" := VList [VStr "m"] ]} !! "custom_flag"
     = Some (VInt 7).
Proof.
  split.
  - apply X3_normalize_state_keeps_valid_entries; [reflexivity | reflexivity |].
    unfold dict_fields. rewrite !elem_of_cons, elem_of_nil.
    intros [H|[H|[]]]; discriminate H.
  - apply X3_normalize_state_keeps_valid_entries; [reflexivity | |].
    + unfold checked_list_fields. rewrite !elem_of_cons, elem_of_nil.
      intros [H|[H|[H|[H|[H|[]]]]]]; discriminate H.
    + unfold dict_fields. rewrite !elem_of_cons, elem_of_nil.
      intros [H|[H|[]]]; discriminate H.
Defined.

(** X4: when [is_guest] is not supplied it is computed from the user id:
    true exactly when [user_id] equals "guest", and true when [user_id]
    is missing too (it defaults to "guest"). *)
Theorem X4_normalize_state_is_guest_default (d : dict) :
  d !! "is_guest" = None ->
  normalize_state d !! "is_guest"
  = Some (VBool (match d !! "user_id" with
                 | Some u => py_eqb u (VStr "guest")
                 | None => true
                 end)).
Proof. apply normalize_state_is_guest. Qed.

Lemma X4_normalize_state_is_guest_default_witness :
  normalize_state {[ "user_id" := VStr "alice" ]} !! "is_guest" = Some (VBool false).
Proof.
  etransitivity.
  - apply (X4_normalize_state_is_guest_default {[ "user_id" := VStr "alice" ]}).
    reflexivity.
  - reflexivity.
Defined.
(** ** More on the [ensure_*] helpers, the model router and the classifier *)

Lemma ensure_intent_id (s : dict) (v : value) :
  s !! "intent" = Some v -> v <> VNone -> ensure_intent s = s.
Proof. unfold ensure_intent. intros -> Hv. by destruct v. Qed.

Lemma ensure_intent_sets (s : dict) :
  exists v, ensure_intent s !! "intent" = Some v /\ v <> VNone.
Proof.
  unfold ensure_intent.
  destruct (s !! "intent") as [v|] eqn:E.
  - destruct v; try (exists (VStr "unknown");
                     by rewrite lookup_insert_ne, lookup_insert_eq);
      eexists; (split; [exact E | discriminate]).
  - exists (VStr "unknown"). by rewrite lookup_insert_ne, lookup_insert_eq.
Qed.

(** X5: each of the three narrow helpers establishes its field and is
    idempotent: after [ensure_intent] the intent is present and not [None]
    (a state that already has one is returned unchanged, confidence
    included), after [ensure_metadata] the metadata is a dict, after
    [ensure_errors] the error list is a list. *)
Theorem X5_ensure_helpers_establish_and_are_idempotent (s : dict) :
  (exists v, ensure_intent s !! "intent" = Some v /\ v <> VNone)
  /\ ensure_intent (ensure_intent s) = ensure_intent s
  /\ holds_dict (ensure_metadata s) "metadata"
  /\ ensure_metadata (ensure_metadata s) = ensure_metadata s
  /\ holds_list (ensure_errors s) "errors"
  /\ ensure_errors (ensure_errors s) = ensure_errors s.
Proof.
  split; [apply ensure_intent_sets|]. split.
  { destruct (ensure_intent_sets s) as (v & Hv & Hne). by eapply ensure_intent_id. }
  split; [apply ensure_metadata_holds|]. split.
  { apply ensure_metadata_id, ensure_metadata_holds. }
  split; [apply ensure_errors_holds|].
  apply ensure_errors_id, ensure_errors_holds.
Qed.

Lemma truthy_dict_false (md : dict) : truthy (VDict md) = false -> md = ∅.
Proof.
  simpl. destruct (map_to_list md) eqn:E; [|discriminate].
  intros _. by apply map_to_list_empty_iff.
Qed.

Section InvokeMore.
Context `{Backends}.

Lemma invoke_fallback_ok self msgs t w e r md :
  primary_invoke msgs t = Raise e ->
  enable_fallback self && _is_quota_exhausted_429 e = true ->
  fallback_invoke msgs t = Ok r ->
  w_state w !! "metadata" = Some (VDict md) ->
  invoke self msgs t w
  = (Ok r,
     World (<["metadata" := VDict (<["fallback_used" := VBool true]> md)]>
              (<["fallback_reason" :=
                   VStr "ResourceExhausted (429) - Gemini quota limit reached"]>
                 (<["model_used" := VStr ("huggingface:" +:+ fallback_repo_id self)]>
                    (w_state w))))
           (w_log w ++ [EvPrimary; EvFallback])).
Proof.
  intros Hp Hq Hf Hmd.
  unfold invoke, try_except, call_primary, call_fallback, emit, lift, raise, set, get.
  unfold mbind, M_bind, mret, M_ret. simpl. rewrite Hp, Hq. simpl. rewrite Hf. simpl.
  rewrite <- !app_assoc. simpl.
  rewrite !lookup_insert_ne by done. rewrite Hmd. simpl.
  unfold py_or. destruct (truthy (VDict md)) eqn:Ht; simpl; [done|].
  apply truthy_dict_false in Ht. by subst md.
Qed.

Lemma not_quota_without_429 e :
  exn_class e <> "ResourceExhausted" ->
  contains "429" (lower (exn_msg e)) = false ->
  _is_quota_exhausted_429 e = false.
Proof.
  intros Hc H429. unfold _is_quota_exhausted_429.
  destruct (String.eqb_spec (exn_class e) "ResourceExhausted") as [E|_]; [done|].
  cbv zeta. rewrite H429. by rewrite !andb_false_r.
Qed.

End InvokeMore.

(** X6: when the primary backend answers, [invoke] returns that answer,
    never calls the secondary backend, records the primary model in
    [model_used], clears [fallback_reason], and leaves every other field,
    [metadata] included, as it was. *)
Theorem X6_invoke_primary_success
    `{Backends} (self : LLMRouter) (msgs : prompt) (t : Q) (w : world) (r : response) :
  primary_invoke msgs t = Ok r ->
  invoke self msgs t w
  = (Ok r, World (<["fallback_reason" := VNone]>
                    (<["model_used" := VStr (primary_model self)]> (w_state w)))
                 (w_log w ++ [EvPrimary])).
Proof. apply invoke_primary_ok. Qed.

Lemma X6_invoke_primary_success_witness :
  @invoke (answering "hi") default_router [] 0.7 empty_world
  = (Ok (Response (Some (VStr "hi"))),
     World (<["fallback_reason" := VNone]>
              (<["model_used" := VStr "gemini-2.5-flash"]> ∅))
           [EvPrimary]).
Proof.
  apply (@X6_invoke_primary_success (answering "hi") default_router [] 0.7 empty_world).
  reflexivity.
Defined.

(** X7: when the primary backend raises the quota signal, fallback is
    enabled and the secondary backend answers, [invoke] returns the
    secondary answer and records it: [model_used] is "huggingface:" and the
    fallback repository, [fallback_reason] is set, and [metadata] gains
    [fallback_used = True] with its other entries kept. *)
Theorem X7_invoke_fallback_success
    `{Backends} (self : LLMRouter) (msgs : prompt) (t : Q) (w : world)
    (e : exn) (r : response) (md : dict) :
  primary_invoke msgs t = Raise e ->
  enable_fallback self && _is_quota_exhausted_429 e = true ->
  fallback_invoke msgs t = Ok r ->
  w_state w !! "metadata" = Some (VDict md) ->
  invoke self msgs t w
  = (Ok r,
     World (<["metadata" := VDict (<["fallback_used" := VBool true]> md)]>
              (<["fallback_reason" :=
                   VStr "ResourceExhausted (429) - Gemini quota limit reached"]>
                 (<["model_used" := VStr ("huggingface:" +:+ fallback_repo_id self)]>
                    (w_state w))))
           (w_log w ++ [EvPrimary; EvFallback])).
Proof. apply invoke_fallback_ok. Qed.

Lemma X7_invoke_fallback_success_witness :
  let w := World {[ "metadata" := VDict {[ "turn" := VInt 3 ]} ]} [] in
  (@invoke out_of_quota default_router [] 0.7 w).1 = Ok (Response (Some (VStr "hello")))
  /\ w_state (@invoke out_of_quota default_router [] 0.7 w).2 !! "metadata"
     = Some (VDict {[ "fallback_used" := VBool true; "turn" := VInt 3 ]}).
Proof.
  cbv zeta.
  rewrite (@X7_invoke_fallback_success out_of_quota default_router [] 0.7
             (World {[ "metadata" := VDict {[ "turn" := VInt 3 ]} ]} [])
             quota_error (Response (Some (VStr "hello"))) {[ "turn" := VInt 3 ]});
    try reflexivity.
  split; [reflexivity|]. vm_compute. reflexivity.
Defined.

(** X8: whatever the backends do and however it ends, [invoke] changes
    the state at no key other than [model_used], [fallback_reason] and
    [metadata]. *)
Theorem X8_invoke_writes_three_keys
    `{Backends} (self : LLMRouter) (msgs : prompt) (t : Q) :
  modifies ["model_used"; "fallback_reason"; "metadata"] (invoke self msgs t).
Proof. apply invoke_modifies. Qed.

(** X9: the message markers all need "429": an exception that is not a
    [ResourceExhausted] and whose message does not contain "429" is never
    taken for the quota signal, so [invoke] re-raises it with the state
    untouched and the secondary backend not called, fallback enabled or
    not. *)
Theorem X9_no_429_no_fallback
    `{Backends} (self : LLMRouter) (msgs : prompt) (t : Q) (w : world) (e : exn) :
  primary_invoke msgs t = Raise e ->
  exn_class e <> "ResourceExhausted" ->
  contains "429" (lower (exn_msg e)) = false ->
  _is_quota_exhausted_429 e = false
  /\ invoke self msgs t w = (Raise e, World (w_state w) (w_log w ++ [EvPrimary])).
Proof.
  intros Hp Hc H429.
  pose proof (not_quota_without_429 e Hc H429) as Hq.
  split; [exact Hq|]. apply invoke_propagates; [exact Hp|].
  rewrite Hq. apply andb_false_r.
Qed.

Lemma X9_no_429_no_fallback_witness :
  _is_quota_exhausted_429 (Exn "RuntimeError" "quota exceeded, resource exhausted") = false
  /\ @invoke {| primary_invoke := fun _ _ =>
                  Raise (Exn "RuntimeError" "quota exceeded, resource exhausted");
                fallback_invoke := fun _ _ => Ok (Response None) |}
             default_router [] 0.7 empty_world
     = (Raise (Exn "RuntimeError" "quota exceeded, resource exhausted"),
        World ∅ [EvPrimary]).
Proof.
  apply (@X9_no_429_no_fallback
           {| primary_invoke := fun _ _ =>
                Raise (Exn "RuntimeError" "quota exceeded, resource exhausted");
              fallback_invoke := fun _ _ => Ok (Response None) |}
           default_router [] 0.7 empty_world
           (Exn "RuntimeError" "quota exceeded, resource exhausted")).
  - reflexivity.
  - discriminate.
  - reflexivity.
Defined.

#[local] Hint Unfold classify_keys : keys.

(** A string literal is not in a list of other literals. *)
Ltac not_in_literals :=
  rewrite ?not_elem_of_cons, ?elem_of_cons, ?elem_of_nil;
  repeat split; try discriminate; try tauto;
  intros; intuition discriminate.

Section ClassifyMore.
Context `{Backends} `{ClassifierEnv}.



Lemma ensure_all_lookup (s : dict) (k : string) :
  k <> "metadata" -> k <> "errors" -> k <> "intent" -> k <> "intent_confidence" ->
  ensure_intent (ensure_errors (ensure_metadata s)) !! k = s !! k.
Proof.
  intros. by rewrite ensure_intent_lookup_ne, ensure_errors_lookup_ne,
               ensure_metadata_lookup_ne.
Qed.


Lemma ensure_all_errors (s : dict) (l : list value) :
  s !! "errors" = Some (VList l) ->
  ensure_intent (ensure_errors (ensure_metadata s)) !! "errors" = Some (VList l).
Proof.
  intros Hl. rewrite ensure_intent_lookup_ne by done.
  rewrite ensure_errors_id.
  - by rewrite ensure_metadata_lookup_ne.
  - exists l. by rewrite ensure_metadata_lookup_ne.
Qed.



End ClassifyMore.

(** X10: however it ends, with a result or with an exception, [classify]
    writes no field other than [metadata], [errors], [intent],
    [intent_confidence], [model_used] and [fallback_reason]; the query,
    the messages and the identity fields are never touched. *)
Theorem X10_classify_writes_six_keys
    `{Backends} `{ClassifierEnv} (self : IntentRouter) :
  modifies ["metadata"; "errors"; "intent"; "intent_confidence";
            "model_used"; "fallback_reason"] (classify self).
Proof. apply classify_modifies. Qed.





(** X13: [route] sends the four specialised intents to their handlers and
    everything else that can be hashed (chat, unknown, a missing or [None]
    intent, any other string) to [chat_agent]; it never names a fallback
    node. *)
Theorem X13_route_defaults_to_chat (s : dict) :
  (forall n, route s = Ok n ->
             n ∈ ["rag_agent"; "sql_agent"; "code_agent"; "research_agent"; "chat_agent"])
  /\ (s !! "intent" = None \/ s !! "intent" = Some VNone -> route s = Ok "chat_agent")
  /\ (forall i, s !! "intent" = Some (VStr i) ->
                i ∉ ["rag"; "sql"; "code"; "research"] -> route s = Ok "chat_agent").
Proof.
  unfold route. split; [|split].
  - intros n. destruct (s !! "intent") as [[]|]; try (intros [= <-]; set_solver);
      try discriminate.
    repeat case_match; intros [= <-]; set_solver.
  - intros [-> | ->]; reflexivity.
  - intros i -> Hi. rewrite !not_elem_of_cons in Hi.
    destruct Hi as (H1 & H2 & H3 & H4 & _).
    apply String.eqb_neq in H1, H2, H3, H4. rewrite H1, H2, H3, H4.
    by repeat case_match.
Qed.

Lemma X13_route_defaults_to_chat_witness :
  route {[ "intent" := VStr "unknown" ]} = Ok "chat_agent".
Proof.
  apply (proj2 (proj2 (X13_route_defaults_to_chat {[ "intent" := VStr "unknown" ]}))
           "unknown").
  - reflexivity.
  - not_in_literals.
Defined.

Lemma X10_classify_writes_six_keys_witness :
  w_state (@classify (answering "reply") (reply_env (Ok VNone)) default_intent_router
                     (asking "hello")).2 !! "user_query"
  = w_state (asking "hello") !! "user_query".
Proof.
  apply (@X10_classify_writes_six_keys (answering "reply") (reply_env (Ok VNone))
           default_intent_router (asking "hello") "user_query").
  not_in_literals.
Defined.

Lemma X8_invoke_writes_three_keys_witness :
  w_state (@invoke out_of_quota default_router [] 0.7 (asking "hello")).2 !! "messages"
  = w_state (asking "hello") !! "messages".
Proof.
  apply (@X8_invoke_writes_three_keys out_of_quota default_router [] 0.7
           (asking "hello") "messages").
  not_in_literals.
Defined.


(** ** The tenant policy *)

Section TenantFacts.
Import Tenant.

Lemma get_config_known self t c :
  configs self !! t = Some c -> get_config self t = (c, self).
Proof. unfold get_config. by intros ->. Qed.

Lemma get_config_stores self t :
  configs (get_config self t).2 !! t = Some (get_config self t).1.
Proof.
  unfold get_config. destruct (configs self !! t) as [c|] eqn:E; simpl; [done|].
  by rewrite lookup_insert_eq.
Qed.

Lemma get_config_again self t :
  get_config (get_config self t).2 t = get_config self t.
Proof.
  rewrite (get_config_known _ _ _ (get_config_stores self t)).
  by destruct (get_config self t).
Qed.

Lemma get_config_other self t t' :
  t' <> t -> configs (get_config self t).2 !! t' = configs self !! t'.
Proof.
  intros Hne. unfold get_config. destruct (configs self !! t); simpl; [done|].
  by rewrite lookup_insert_ne.
Qed.

Lemma lower_ascii_idem c : lower_ascii (lower_ascii c) = lower_ascii c.
Proof. destruct c as [[] [] [] [] [] [] [] []]; reflexivity. Qed.

Lemma lower_idem s : lower (lower s) = lower s.
Proof. induction s as [|c s IH]; simpl; [done|]. by rewrite lower_ascii_idem, IH. Qed.

Lemma is_agent_allowed_fst self t a :
  (is_agent_allowed self t a).1
  = existsb (String.eqb (lower a)) (map lower (allowed_agents (get_config self t).1)).
Proof. unfold is_agent_allowed. by destruct (get_config self t). Qed.

Lemma is_agent_allowed_snd self t a :
  (is_agent_allowed self t a).2 = (get_config self t).2.
Proof. unfold is_agent_allowed. by destruct (get_config self t). Qed.



End TenantFacts.

(** [get_config] never fails: a tenant seen for the first time gets
    the free-tier defaults ([chat] and [rag] only, 1000 characters, no SQL
    or code execution) and is stored, so that asking again returns the
    same configuration and changes nothing; the configurations of other
    tenants are untouched. *)
Theorem get_config_registers_unknown_tenant
    (self : Tenant.TenantConfigManager) (t : string) :
  Tenant.configs (Tenant.get_config self t).2 !! t = Some (Tenant.get_config self t).1
  /\ Tenant.get_config (Tenant.get_config self t).2 t = Tenant.get_config self t
  /\ (forall t', t' <> t ->
        Tenant.configs (Tenant.get_config self t).2 !! t' = Tenant.configs self !! t')
  /\ (Tenant.configs self !! t = None ->
        (Tenant.get_config self t).1 = Tenant.new_config t
        /\ Tenant.allowed_agents (Tenant.new_config t) = ["chat"; "rag"]
        /\ Tenant.tier (Tenant.new_config t) = Tenant.FREE).
Proof.
  split; [apply get_config_stores|]. split; [apply get_config_again|].
  split; [intros t' Hne; by apply get_config_other|].
  intros Hnone. unfold Tenant.get_config. rewrite Hnone. done.
Qed.

Lemma get_config_registers_unknown_tenant_witness :
  (Tenant.get_config Tenant.new_manager "acme").1 = Tenant.new_config "acme"
  /\ Tenant.configs (Tenant.get_config Tenant.new_manager "acme").2 !! "default"
     = Some Tenant.default_config.
Proof.
  destruct (get_config_registers_unknown_tenant Tenant.new_manager "acme")
    as (_ & _ & Hother & Hnew).
  split.
  - apply Hnew. reflexivity.
  - rewrite Hother by discriminate. reflexivity.
Defined.





(** Agent names are compared without regard to letter case: asking
    for an agent in any capitalisation gives the same answer as asking for
    its lower-case name. *)
Theorem is_agent_allowed_ignores_case
    (self : Tenant.TenantConfigManager) (t a : string) :
  Tenant.is_agent_allowed self t a = Tenant.is_agent_allowed self t (lower a).
Proof.
  unfold Tenant.is_agent_allowed. destruct (Tenant.get_config self t).
  by rewrite lower_idem.
Qed.


(** ** The validators *)

Section ValidatorFacts.

(** The issue list and the risk level move together: no issue and low
    risk, or some issue and medium or high risk. *)
Definition coherent (acc : list string * string) : Prop :=
  (acc.1 = [] /\ acc.2 = "low") \/ (acc.1 <> [] /\ medium_or_high acc.2 = true).

Lemma coherent_append (l : list string) (i r : string) :
  medium_or_high r = true -> coherent (l ++ [i], r).
Proof. intros Hr. right. split; [|done]. simpl. by destruct l. Qed.

Lemma fold_left_invariant {A B} (P : A -> Prop) (f : A -> B -> A) (l : list B) (a : A) :
  P a -> (forall a x, P a -> P (f a x)) -> P (fold_left f l a).
Proof. intros Ha Hf. revert a Ha. induction l as [|x l IH]; simpl; auto. Qed.

Lemma coherent_verdict acc :
  coherent acc ->
  match acc.1 with [] => true | _ => false end = negb (medium_or_high acc.2).
Proof.
  intros [[-> ->] | [Hne Hr]]; [reflexivity|].
  rewrite Hr. by destruct acc.1.
Qed.

End ValidatorFacts.

Section SqlValidatorFacts.
Context `{Regex} `{SqlParser}.
Import SQLValidator.

Lemma pattern_pass_coherent sql_upper acc :
  coherent acc -> coherent (pattern_pass sql_upper acc).
Proof.
  intros Hacc. unfold pattern_pass. apply fold_left_invariant; [done|].
  intros a pd Ha. destruct (re_search _ _); [|done]. by apply coherent_append.
Qed.

Lemma pattern_fold_grows sql_upper (l : list (string * string)) (acc : list string * string) :
  acc.1 `prefix_of`
    (fold_left (fun acc pd =>
                  if re_search pd.1 sql_upper
                  then (acc.1 ++ ["Potentially dangerous: " +:+ pd.2], "high")
                  else acc) l acc).1.
Proof.
  revert acc. induction l as [|pd l IH]; intros acc; simpl; [done|].
  etransitivity; [|apply IH]. destruct (re_search _ _); [|done].
  simpl. by apply prefix_app_r.
Qed.

Lemma pattern_pass_grows sql_upper acc :
  acc.1 `prefix_of` (pattern_pass sql_upper acc).1.
Proof. apply pattern_fold_grows. Qed.

Lemma pattern_pass_reports sql_upper acc p d :
  (p, d) ∈ DANGEROUS_PATTERNS -> re_search p sql_upper = true ->
  ("Potentially dangerous: " +:+ d) ∈ (pattern_pass sql_upper acc).1.
Proof.
  unfold pattern_pass. generalize DANGEROUS_PATTERNS. intros l. revert acc.
  induction l as [|pd l IH]; intros acc Hin Hm; [by apply elem_of_nil in Hin|].
  apply elem_of_cons in Hin as [<-|Hin]; simpl.
  - rewrite Hm.
    destruct (pattern_fold_grows sql_upper l
                (acc.1 ++ ["Potentially dangerous: " +:+ d], "high")) as [k Hk].
    rewrite Hk. simpl. set_solver.
  - by apply IH.
Qed.

Lemma ast_pass_coherent sql acc : coherent acc -> coherent (ast_pass sql acc).
Proof.
  intros Hacc. unfold ast_pass. destruct (sqlparse_keywords sql) as [tokens|e].
  - apply fold_left_invariant; [done|]. intros a tok Ha.
    repeat case_match; try done. by apply coherent_append.
  - by apply coherent_append.
Qed.

Lemma ast_pass_grows sql acc : acc.1 `prefix_of` (ast_pass sql acc).1.
Proof.
  unfold ast_pass. destruct (sqlparse_keywords sql) as [tokens|e].
  - revert acc. induction tokens as [|tok l IH]; intros acc; simpl; [done|].
    etransitivity; [|apply IH].
    repeat case_match; try done. simpl. by apply prefix_app_r.
  - simpl. by apply prefix_app_r.
Qed.

(** The accumulator of [validate] when the record is built. *)
Definition final_acc (sql : string) : list string * string :=
  (issues (validate sql), risk_level (validate sql)).

Lemma validate_coherent sql : coherent (final_acc sql).
Proof.
  unfold final_acc, validate. cbv zeta. simpl issues. simpl risk_level.
  set (acc := ast_pass sql (pattern_pass (strip (upper sql)) ([], "low"))).
  assert (Hacc : coherent acc).
  { apply ast_pass_coherent, pattern_pass_coherent. by left. }
  destruct (negb _ && _).
  - destruct (1 <? _)%nat; simpl; by apply coherent_append.
  - destruct (1 <? _)%nat; simpl; [by apply coherent_append|].
    by destruct acc.
Qed.

Lemma validate_unsafe_has_issue sql :
  has_safe_pattern sql (strip (upper sql)) = false -> issues (validate sql) <> [].
Proof.
  intros Hs. unfold validate. cbv zeta. simpl issues. rewrite Hs. simpl negb.
  set (acc := ast_pass sql (pattern_pass (strip (upper sql)) ([], "low"))).
  destruct acc.1 as [|i l] eqn:E; simpl.
  - destruct (1 <? _)%nat; simpl; discriminate.
  - destruct (1 <? _)%nat; simpl; [|by rewrite E].
    rewrite E. discriminate.
Qed.

Lemma validate_is_safe sql :
  is_safe (validate sql) = negb (requires_approval (validate sql)).
Proof.
  pose proof (coherent_verdict _ (validate_coherent sql)) as Hc.
  unfold final_acc in Hc. cbn [fst snd] in Hc.
  change (requires_approval (validate sql))
    with (medium_or_high (risk_level (validate sql))).
  rewrite <- Hc.
  change (is_safe (validate sql))
    with (match issues (validate sql) with [] => true | _ => false end
          && has_safe_pattern sql (strip (upper sql))).
  destruct (has_safe_pattern sql (strip (upper sql))) eqn:Hs.
  - apply andb_true_r.
  - rewrite andb_false_r. pose proof (validate_unsafe_has_issue sql Hs) as Hne.
    by destruct (issues (validate sql)).
Qed.

Lemma validate_issues_grow sql :
  (pattern_pass (strip (upper sql)) ([], "low")).1 `prefix_of` issues (validate sql).
Proof.
  unfold validate. cbv zeta. simpl issues.
  etransitivity; [apply (ast_pass_grows sql)|].
  set (acc := ast_pass sql _).
  destruct (negb _ && _); destruct (1 <? _)%nat; simpl;
    repeat first [ done | apply prefix_app_r ].
Qed.

End SqlValidatorFacts.

(** X18: for the SQL validator "safe" and "requires approval" are exact
    opposites, whatever the query and whatever the regex engine and the
    tokenizer report: a query is let through without approval exactly when
    it is called safe. *)
Theorem X18_sql_validate_safe_iff_no_approval
    `{Regex} `{SqlParser} (sql : string) :
  is_safe (SQLValidator.validate sql) = negb (requires_approval (SQLValidator.validate sql)).
Proof. apply validate_is_safe. Qed.

(** X19: a query with more than one semicolon is always high risk: the
    last issue recorded is "Multiple statements detected", it requires
    approval and is not safe. *)
Theorem X19_sql_validate_two_semicolons_high_risk
    `{Regex} `{SqlParser} (sql : string) :
  (1 < count_char ";" sql)%nat ->
  let v := SQLValidator.validate sql in
  risk_level v = "high"
  /\ last (issues v) = Some "Multiple statements detected"
  /\ requires_approval v = true
  /\ is_safe v = false.
Proof.
  intros Hc. cbv zeta. rewrite validate_is_safe.
  assert (Hlt : (1 <? count_char ";" sql)%nat = true) by by apply Nat.ltb_lt.
  unfold SQLValidator.validate. cbv zeta. rewrite Hlt. simpl.
  rewrite last_snoc. done.
Qed.



Lemma X19_sql_validate_two_semicolons_high_risk_witness :
  let v := @SQLValidator.validate (only_pattern "\bSELECT\b") no_keywords
             "SELECT 1; SELECT 2;" in
  risk_level v = "high"
  /\ last (issues v) = Some "Multiple statements detected"
  /\ requires_approval v = true
  /\ is_safe v = false.
Proof.
  apply (@X19_sql_validate_two_semicolons_high_risk (only_pattern "\bSELECT\b") no_keywords
           "SELECT 1; SELECT 2;").
  vm_compute. lia.
Defined.

(** X20: a query that matches any of the dangerous patterns is reported
    ("Potentially dangerous: " and the pattern's description is among the
    issues) and always requires approval, even when the tokenizer fails
    and the risk is put back to medium. *)
Theorem X20_sql_validate_dangerous_pattern_needs_approval
    `{Regex} `{SqlParser} (sql p d : string) :
  (p, d) ∈ SQLValidator.DANGEROUS_PATTERNS ->
  re_search p (strip (upper sql)) = true ->
  let v := SQLValidator.validate sql in
  ("Potentially dangerous: " +:+ d) ∈ issues v
  /\ requires_approval v = true
  /\ is_safe v = false.
Proof.
  intros Hin Hm. cbv zeta.
  assert (Hissue : ("Potentially dangerous: " +:+ d) ∈ issues (SQLValidator.validate sql)).
  { destruct (validate_issues_grow sql) as [k ->].
    apply elem_of_app. left. by apply (pattern_pass_reports _ _ p d). }
  split; [exact Hissue|].
  pose proof (validate_coherent sql) as [[Hnil _] | [_ Hr]].
  - unfold final_acc in Hnil. cbn [fst snd] in Hnil. rewrite Hnil in Hissue.
    by apply elem_of_nil in Hissue.
  - rewrite validate_is_safe.
    assert (Hreq : requires_approval (SQLValidator.validate sql) = true) by exact Hr.
    by rewrite Hreq.
Qed.

Lemma X20_sql_validate_dangerous_pattern_needs_approval_witness :
  let v := @SQLValidator.validate (only_pattern "\bDROP\s+TABLE\b")
             {| sqlparse_keywords := fun _ => Raise (Exn "ValueError" "bad token") |}
             "drop table users" in
  "Potentially dangerous: DROP TABLE operations" ∈ issues v
  /\ requires_approval v = true
  /\ is_safe v = false.
Proof.
  apply (@X20_sql_validate_dangerous_pattern_needs_approval
           (only_pattern "\bDROP\s+TABLE\b")
           {| sqlparse_keywords := fun _ => Raise (Exn "ValueError" "bad token") |}
           "drop table users" "\bDROP\s+TABLE\b" "DROP TABLE operations").
  - unfold SQLValidator.DANGEROUS_PATTERNS. apply list_elem_of_here.
  - reflexivity.
Defined.

(** X21: a query in which neither a safe pattern nor a SELECT keyword
    token is found is never let through: it requires approval. *)
Theorem X21_sql_validate_unrecognised_needs_approval
    `{Regex} `{SqlParser} (sql : string) :
  SQLValidator.has_safe_pattern sql (strip (upper sql)) = false ->
  requires_approval (SQLValidator.validate sql) = true
  /\ issues (SQLValidator.validate sql) <> [].
Proof.
  intros Hs.
  pose proof (validate_unsafe_has_issue sql Hs) as Hne. split; [|exact Hne].
  pose proof (validate_coherent sql) as [[Hnil _] | [_ Hr]].
  - unfold final_acc in Hnil. cbn [fst snd] in Hnil. contradiction.
  - exact Hr.
Qed.

Lemma X21_sql_validate_unrecognised_needs_approval_witness :
  requires_approval (@SQLValidator.validate silent_regex no_keywords "VACUUM") = true
  /\ issues (@SQLValidator.validate silent_regex no_keywords "VACUUM") <> [].
Proof.
  apply (@X21_sql_validate_unrecognised_needs_approval silent_regex no_keywords "VACUUM").
  reflexivity.
Defined.

Section CodeValidatorFacts.
Context `{Regex} `{PyParser}.
Import CodeValidator.

(** No issue recorded before the file-operation check reads as "File
    operations detected" up to its first colon. *)
Definition no_file_issue (acc : list string * string) : Prop :=
  Forall (fun i => before_colon i <> "File operations detected") acc.1.

Lemma code_pattern_pass_coherent code acc :
  coherent acc -> coherent (pattern_pass code acc).
Proof.
  intros Hacc. unfold pattern_pass. apply fold_left_invariant; [done|].
  intros a pd Ha. destruct (re_search _ _); [|done]. by apply coherent_append.
Qed.

Lemma code_pattern_pass_no_file_issue code acc :
  no_file_issue acc -> no_file_issue (pattern_pass code acc).
Proof.
  intros Hacc. unfold pattern_pass. apply fold_left_invariant; [done|].
  intros a pd Ha. destruct (re_search _ _); [|done].
  unfold no_file_issue in *. simpl. apply Forall_app. split; [done|].
  apply Forall_singleton. simpl. discriminate.
Qed.

Lemma no_file_issue_existsb acc :
  no_file_issue acc ->
  existsb (String.eqb "File operations detected") (map before_colon acc.1) = false.
Proof.
  unfold no_file_issue. generalize acc.1. intros l Hl.
  induction Hl as [|i l Hi Hl IH]; cbn [existsb map]; [done|].
  rewrite IH, orb_false_r. apply String.eqb_neq. congruence.
Qed.

(** The accumulator after the parse step. *)
Definition parsed_acc (code : string) : result (list string * string) :=
  let acc := pattern_pass code ([], "low") in
  match ast_parse code with
  | Ok _ => Ok acc
  | Raise e =>
      if is_syntax_error e
      then Ok (acc.1 ++ ["Syntax error: " +:+ exn_msg e], "medium")
      else Raise e
  end.

Lemma parsed_acc_ok code acc :
  parsed_acc code = Ok acc -> coherent acc /\ no_file_issue acc.
Proof.
  unfold parsed_acc. cbv zeta.
  assert (Hc : coherent (pattern_pass code ([], "low")))
    by (apply code_pattern_pass_coherent; by left).
  assert (Hn : no_file_issue (pattern_pass code ([], "low")))
    by (apply code_pattern_pass_no_file_issue; apply Forall_nil_2).
  destruct (ast_parse code) as [[]|e].
  - by intros [= <-].
  - destruct (is_syntax_error e); [|discriminate]. intros [= <-]. split.
    + by apply coherent_append.
    + unfold no_file_issue in *. simpl. apply Forall_app. split; [done|].
      apply Forall_singleton. simpl. discriminate.
Qed.

Lemma validate_unfold code :
  validate code
  = match parsed_acc code with
    | Raise e => Raise e
    | Ok acc =>
        let acc :=
          if existsb (fun op => contains op code) file_operations then
            let risk := if String.eqb acc.2 "low" then "high" else acc.2 in
            if negb (existsb (String.eqb "File operations detected")
                             (map before_colon acc.1))
            then (acc.1 ++ ["File operations detected"], risk)
            else (acc.1, risk)
          else acc in
        Ok {| is_safe := match acc.1 with [] => true | _ => false end
                         && String.eqb acc.2 "low";
              risk_level := acc.2;
              issues := acc.1;
              requires_approval :=
                medium_or_high acc.2 || (0 <? Z.of_nat (List.length acc.1)) |}
    end.
Proof. reflexivity. Qed.

Lemma code_validate_spec code v :
  validate code = Ok v ->
  is_safe v = negb (requires_approval v)
  /\ (existsb (fun op => contains op code) file_operations = true ->
      requires_approval v = true
      /\ medium_or_high (risk_level v) = true
      /\ "File operations detected" ∈ issues v).
Proof.
  rewrite validate_unfold.
  destruct (parsed_acc code) as [acc|e] eqn:Hp; [|discriminate].
  destruct (parsed_acc_ok _ _ Hp) as [Hc Hn].
  rewrite (no_file_issue_existsb _ Hn). simpl negb. cbv iota zeta.
  destruct (existsb _ file_operations) eqn:Hf.
  - intros [= <-]. simpl.
    assert (Hr : medium_or_high (if (acc.2 =? "low")%string then "high" else acc.2) = true).
    { destruct Hc as [[_ ->] | [_ Hr]]; [reflexivity|].
      by destruct (acc.2 =? "low")%string. }
    rewrite Hr. simpl. split.
    + by destruct acc.1.
    + intros _. split; [done|]. split; [done|]. set_solver.
  - intros [= <-]. simpl. split; [|discriminate].
    destruct Hc as [[-> ->] | [Hne Hr]]; [reflexivity|].
    rewrite Hr. simpl. by destruct acc.1.
Qed.

Lemma code_validate_syntax_error code e :
  ast_parse code = Raise e -> is_syntax_error e = true ->
  exists v, validate code = Ok v
            /\ ("Syntax error: " +:+ exn_msg e) ∈ issues v
            /\ requires_approval v = true.
Proof.
  intros Hp He. rewrite validate_unfold. unfold parsed_acc. cbv zeta.
  rewrite Hp, He. cbv iota beta.
  set (l := (pattern_pass code ([], "low")).1).
  destruct (existsb (fun op => contains op code) file_operations).
  - cbn [fst snd]. destruct (negb _);
      eexists; (split; [reflexivity|]); cbn [issues requires_approval fst snd];
      (split; [set_solver | reflexivity]).
  - eexists. split; [reflexivity|]. cbn [issues requires_approval fst snd].
    split; [set_solver | reflexivity].
Qed.

Lemma code_validate_raises code e :
  validate code = Raise e <-> (ast_parse code = Raise e /\ is_syntax_error e = false).
Proof.
  rewrite validate_unfold. unfold parsed_acc. cbv zeta.
  destruct (ast_parse code) as [[]|e'] eqn:Hp.
  - split; [discriminate | intros [? _]; discriminate].
  - destruct (is_syntax_error e') eqn:He.
    + split; [discriminate | intros [[= ->] ?]; congruence].
    + split; [intros [= ->]; done | intros [[= ->] _]; done].
Qed.

End CodeValidatorFacts.

(** X22: for the code validator too "safe" is the exact opposite of
    "requires approval"; and code that contains one of the substrings
    [open(], [write(], [delete], [remove] always requires approval, at
    medium or high risk, with the issue "File operations detected"
    recorded. *)
Theorem X22_code_validate_file_operations_need_approval
    `{Regex} `{PyParser} (code : string) (v : validation) :
  CodeValidator.validate code = Ok v ->
  is_safe v = negb (requires_approval v)
  /\ (existsb (fun op => contains op code) CodeValidator.file_operations = true ->
      requires_approval v = true
      /\ medium_or_high (risk_level v) = true
      /\ "File operations detected" ∈ issues v).
Proof. apply code_validate_spec. Qed.


Lemma X22_code_validate_file_operations_need_approval_witness :
  exists v, @CodeValidator.validate silent_regex parses_everything "f.write(data)" = Ok v
    /\ is_safe v = false /\ requires_approval v = true /\ risk_level v = "high".
Proof.
  eexists. split; [reflexivity|].
  destruct (@X22_code_validate_file_operations_need_approval
              silent_regex parses_everything "f.write(data)" _ eq_refl) as [Hs Hf].
  destruct (Hf eq_refl) as (Hr & _ & _).
  split; [|split; [exact Hr | reflexivity]].
  rewrite Hs, Hr. reflexivity.
Defined.

(** X23: code that does not parse is never run unchecked: on a
    [SyntaxError] validation still returns, records "Syntax error: " and
    the message, and requires approval.  The only exception that escapes
    [validate] is one that [ast.parse] raises and that is not a
    [SyntaxError]. *)
Theorem X23_code_validate_syntax_error_needs_approval
    `{Regex} `{PyParser} (code : string) (e : exn) :
  (ast_parse code = Raise e -> CodeValidator.is_syntax_error e = true ->
   exists v, CodeValidator.validate code = Ok v
             /\ ("Syntax error: " +:+ exn_msg e) ∈ issues v
             /\ requires_approval v = true)
  /\ (CodeValidator.validate code = Raise e
      <-> (ast_parse code = Raise e /\ CodeValidator.is_syntax_error e = false)).
Proof.
  split; [apply code_validate_syntax_error | apply code_validate_raises].
Qed.

Lemma X23_code_validate_syntax_error_needs_approval_witness :
  exists v, @CodeValidator.validate silent_regex
              {| ast_parse := fun _ => Raise (Exn "SyntaxError" "invalid syntax") |}
              "print(" = Ok v
    /\ "Syntax error: invalid syntax" ∈ issues v
    /\ requires_approval v = true.
Proof.
  apply (@X23_code_validate_syntax_error_needs_approval silent_regex
           {| ast_parse := fun _ => Raise (Exn "SyntaxError" "invalid syntax") |}
           "print(" (Exn "SyntaxError" "invalid syntax")); reflexivity.
Defined.


(** ** The routing functions of the graph *)

Section NormalizeDefaults.

Lemma setdefault_absent k v (d : dict) : d !! k = None -> setdefault k v d !! k = Some v.
Proof. intros Hk. unfold setdefault. rewrite Hk. apply lookup_insert_eq. Qed.

End NormalizeDefaults.

#[local] Opaque setdefault reset_unless_list reset_unless_dict set_is_guest.

(** The key at hand is not one of the container fields. *)
Ltac not_a_container_field :=
  unfold checked_list_fields, dict_fields;
  rewrite !elem_of_cons, elem_of_nil; intros; intuition discriminate.

(** Reads a field that [normalize_state] only defaults, from a state that
    lacks it. *)
Ltac normalize_default :=
  unfold normalize_state; cbv zeta;
  repeat first
    [ apply setdefault_absent
    | apply setdefault_lookup_old
    | apply set_is_guest_lookup_old
    | apply reset_unless_list_lookup_old; [|discriminate]
    | apply reset_unless_dict_lookup_old; [|discriminate] ];
  repeat first
    [ rewrite setdefault_lookup_ne by discriminate
    | rewrite set_is_guest_lookup_ne by discriminate
    | rewrite reset_unless_list_lookup_ne by discriminate
    | rewrite reset_unless_dict_lookup_ne by discriminate ];
  assumption.

Lemma normalize_state_approved (s : dict) :
  normalize_state s !! "approved" = Some (default (VBool false) (s !! "approved")).
Proof.
  destruct (s !! "approved") as [v|] eqn:E; simpl.
  - apply normalize_state_lookup_old; [done | not_a_container_field ..].
  - normalize_default.
Qed.

Lemma normalize_state_retry_count (s : dict) :
  normalize_state s !! "retry_count" = Some (default (VInt 0) (s !! "retry_count")).
Proof.
  destruct (s !! "retry_count") as [v|] eqn:E; simpl.
  - apply normalize_state_lookup_old; [done | not_a_container_field ..].
  - normalize_default.
Qed.

Lemma normalize_state_max_retries (s : dict) :
  normalize_state s !! "max_retries" = Some (default (VInt 3) (s !! "max_retries")).
Proof.
  destruct (s !! "max_retries") as [v|] eqn:E; simpl.
  - apply normalize_state_lookup_old; [done | not_a_container_field ..].
  - normalize_default.
Qed.

Lemma normalize_state_intent (s : dict) :
  normalize_state s !! "intent" = Some (default (VStr "unknown") (s !! "intent")).
Proof.
  destruct (s !! "intent") as [v|] eqn:E; simpl.
  - apply normalize_state_lookup_old; [done | not_a_container_field ..].
  - normalize_default.
Qed.

#[local] Transparent setdefault reset_unless_list reset_unless_dict set_is_guest.

Section RoutingFacts.
Implicit Types (s : dict).

Lemma route_after_approval_targets s :
  _route_after_approval s ∈ ["sql_agent"; "code_agent"; "end"].
Proof. unfold _route_after_approval. repeat case_match; set_solver. Qed.

Lemma route_after_retry_targets s :
  _route_after_retry s ∈ ["sql_agent"; "code_agent"; "end"].
Proof. unfold _route_after_retry. repeat case_match; set_solver. Qed.

Lemma approval_gate_unapproved s :
  truthy (default (VBool false) (s !! "approved")) = false ->
  let s' := _approval_gate_node s in
  s' !! "execution_status" = Some (VStr "requires_approval")
  /\ s' !! "requires_human_input" = Some (VBool true)
  /\ s' !! "should_continue" = Some (VBool false)
  /\ _route_after_approval s' = "end".
Proof.
  intros Ha. cbv zeta. unfold _approval_gate_node. cbv zeta.
  rewrite normalize_state_approved. simpl default. rewrite Ha.
  split; [by rewrite !lookup_insert_ne, lookup_insert_eq by done|].
  split; [by rewrite !lookup_insert_ne, lookup_insert_eq by done|].
  split; [by rewrite lookup_insert_eq|].
  unfold _route_after_approval. rewrite !lookup_insert_ne by done.
  rewrite normalize_state_approved. simpl default. by rewrite Ha.
Qed.

Lemma approval_gate_approved s :
  truthy (default (VBool false) (s !! "approved")) = true ->
  let s' := _approval_gate_node s in
  s' !! "execution_status" = Some (VStr "approved")
  /\ s' !! "should_continue" = Some (VBool true)
  /\ _route_after_approval s'
     = (if eq_str (s !! "intent") "sql" then "sql_agent"
        else if eq_str (s !! "intent") "code" then "code_agent"
        else "end").
Proof.
  intros Ha. cbv zeta. unfold _approval_gate_node. cbv zeta.
  rewrite normalize_state_approved. simpl default. rewrite Ha.
  split; [by rewrite !lookup_insert_ne, lookup_insert_eq by done|].
  split; [by rewrite lookup_insert_eq|].
  unfold _route_after_approval. rewrite !lookup_insert_ne by done.
  rewrite normalize_state_approved, normalize_state_intent. simpl default. rewrite Ha.
  destruct (s !! "intent") as [v|]; reflexivity.
Qed.

Lemma under_budget_ints s (n m : Z) :
  s !! "retry_count" = Some (VInt n) -> s !! "max_retries" = Some (VInt m) ->
  under_budget s = Ok (n <? m).
Proof.
  intros Hn Hm. unfold under_budget. rewrite Hn, Hm. simpl.
  f_equal. unfold Qlt_bool, Qle_bool. simpl. rewrite !Z.mul_1_r.
  destruct (Z.ltb_spec n m); [apply negb_true_iff, Z.leb_gt | apply negb_false_iff, Z.leb_le];
    lia.
Qed.

Lemma retry_handler_spec s (n m : Z) :
  default (VInt 0) (s !! "retry_count") = VInt n ->
  default (VInt 3) (s !! "max_retries") = VInt m ->
  exists s', _retry_handler_node s = Ok s'
    /\ (n < m ->
        s' !! "should_continue" = Some (VBool true)
        /\ s' !! "execution_status" = normalize_state s !! "execution_status"
        /\ _route_after_retry s'
           = (if eq_str (s !! "intent") "sql" then "sql_agent"
              else if eq_str (s !! "intent") "code" then "code_agent"
              else "end"))
    /\ (m <= n ->
        s' !! "should_continue" = Some (VBool false)
        /\ s' !! "execution_status" = Some (VStr "failed")
        /\ _route_after_retry s' = "end").
Proof.
  intros Hn Hm. unfold _retry_handler_node. cbv zeta.
  rewrite (under_budget_ints _ n m);
    [| by rewrite normalize_state_retry_count, Hn
     | by rewrite normalize_state_max_retries, Hm ].
  destruct (Z.ltb_spec n m) as [Hlt|Hge]; eexists; (split; [reflexivity|]); split.
  - intros _. split; [by rewrite lookup_insert_eq|].
    split; [by rewrite lookup_insert_ne|].
    unfold _route_after_retry. rewrite lookup_insert_eq. cbn [default from_option id truthy].
    rewrite !lookup_insert_ne by done. rewrite normalize_state_intent.
    destruct (s !! "intent"); reflexivity.
  - intros Hle. lia.
  - intros Hlt. lia.
  - intros _. split; [by rewrite lookup_insert_ne, lookup_insert_eq|].
    split; [by rewrite lookup_insert_eq|].
    unfold _route_after_retry. rewrite lookup_insert_ne, lookup_insert_eq by done.
    reflexivity.
Qed.

Lemma route_after_agent_spec s :
  (truthy (default (VBool false) (s !! "approval_required")) = true ->
   truthy (default (VBool false) (s !! "approved")) = false ->
   _route_after_agent s = Ok "approval_gate")
  /\ (forall n, _route_after_agent s = Ok n -> n ∈ ["approval_gate"; "retry_handler"; "end"])
  /\ (_route_after_agent s = Ok "retry_handler" ->
      truthy (default (VBool false) (s !! "should_continue")) = true
      /\ under_budget s = Ok true).
Proof.
  unfold _route_after_agent. split; [|split].
  - intros -> ->. reflexivity.
  - intros n. repeat case_match; intros [= <-]; set_solver.
  - repeat case_match; try discriminate; auto.
Qed.

End RoutingFacts.

(** X24: the approval gate never lets an unapproved run go on: without a
    truthy [approved] the node marks the state [requires_approval], asks
    for human input, clears [should_continue], and the edge after it leads
    to the end.  With [approved] set, only the sql and code intents are
    sent back to their handler; every other intent ends the run. *)
Theorem X24_approval_gate_blocks_unapproved (s : dict) :
  (truthy (default (VBool false) (s !! "approved")) = false ->
   _approval_gate_node s !! "execution_status" = Some (VStr "requires_approval")
   /\ _approval_gate_node s !! "requires_human_input" = Some (VBool true)
   /\ _approval_gate_node s !! "should_continue" = Some (VBool false)
   /\ _route_after_approval (_approval_gate_node s) = "end")
  /\ (truthy (default (VBool false) (s !! "approved")) = true ->
      _approval_gate_node s !! "execution_status" = Some (VStr "approved")
      /\ _approval_gate_node s !! "should_continue" = Some (VBool true)
      /\ _route_after_approval (_approval_gate_node s)
         = (if eq_str (s !! "intent") "sql" then "sql_agent"
            else if eq_str (s !! "intent") "code" then "code_agent"
            else "end")).
Proof.
  split; intros Ha.
  - by apply approval_gate_unapproved.
  - by apply approval_gate_approved.
Qed.

Lemma X24_approval_gate_blocks_unapproved_witness :
  _route_after_approval
    (_approval_gate_node {[ "intent" := VStr "sql"; "approval_required" := VBool true ]})
  = "end"
  /\ _route_after_approval
       (_approval_gate_node {[ "intent" := VStr "rag"; "approved" := VBool true ]})
     = "end".
Proof.
  split.
  - apply (proj1 (X24_approval_gate_blocks_unapproved
                    {[ "intent" := VStr "sql"; "approval_required" := VBool true ]})).
    reflexivity.
  - etransitivity.
    + apply (proj2 (X24_approval_gate_blocks_unapproved
                      {[ "intent" := VStr "rag"; "approved" := VBool true ]})).
      reflexivity.
    + reflexivity.
Defined.

(** X25: the retry handler is a pure counter check.  With integer
    counters it never raises; under budget ([retry_count < max_retries]) it
    sets [should_continue], leaves the status alone and re-dispatches the
    sql and code intents only; at or over budget it clears
    [should_continue], marks the run failed and ends it. *)
Theorem X25_retry_handler_counter_check (s : dict) (n m : Z) :
  default (VInt 0) (s !! "retry_count") = VInt n ->
  default (VInt 3) (s !! "max_retries") = VInt m ->
  exists s', _retry_handler_node s = Ok s'
    /\ (n < m ->
        s' !! "should_continue" = Some (VBool true)
        /\ s' !! "execution_status" = normalize_state s !! "execution_status"
        /\ _route_after_retry s'
           = (if eq_str (s !! "intent") "sql" then "sql_agent"
              else if eq_str (s !! "intent") "code" then "code_agent"
              else "end"))
    /\ (m <= n ->
        s' !! "should_continue" = Some (VBool false)
        /\ s' !! "execution_status" = Some (VStr "failed")
        /\ _route_after_retry s' = "end").
Proof. apply retry_handler_spec. Qed.

Lemma X25_retry_handler_counter_check_witness :
  exists s', _retry_handler_node {[ "intent" := VStr "sql"; "retry_count" := VInt 3 ]} = Ok s'
    /\ s' !! "execution_status" = Some (VStr "failed")
    /\ _route_after_retry s' = "end".
Proof.
  destruct (X25_retry_handler_counter_check
              {[ "intent" := VStr "sql"; "retry_count" := VInt 3 ]} 3 3)
    as (s' & Hs' & _ & Hover); [reflexivity | reflexivity |].
  exists s'. split; [exact Hs'|]. destruct Hover as (_ & Hst & Hr); [lia|]. by split.
Defined.

(** X26: after a handler the approval signal has priority: a state with
    [approval_required] set and [approved] not set goes to the approval
    gate whatever its retry fields hold.  The edge only ever names the
    approval gate, the retry handler or the end, and names the retry
    handler only when [should_continue] is set and the retry count is
    under the bound. *)
Theorem X26_route_after_agent_approval_first (s : dict) :
  (truthy (default (VBool false) (s !! "approval_required")) = true ->
   truthy (default (VBool false) (s !! "approved")) = false ->
   _route_after_agent s = Ok "approval_gate")
  /\ (forall n, _route_after_agent s = Ok n -> n ∈ ["approval_gate"; "retry_handler"; "end"])
  /\ (_route_after_agent s = Ok "retry_handler" ->
      truthy (default (VBool false) (s !! "should_continue")) = true
      /\ under_budget s = Ok true).
Proof. apply route_after_agent_spec. Qed.

Lemma X26_route_after_agent_approval_first_witness :
  _route_after_agent {[ "approval_required" := VBool true; "should_continue" := VBool true;
                        "retry_count" := VStr "one" ]}
  = Ok "approval_gate".
Proof.
  apply (proj1 (X26_route_after_agent_approval_first
                  {[ "approval_required" := VBool true; "should_continue" := VBool true;
                     "retry_count" := VStr "one" ]})); reflexivity.
Defined.

Section ClassificationRouting.

(** Whatever [m] returns is one of [names]. *)
Definition returns_in {A} (names : list A) (m : M A) : Prop :=
  forall w n, (m w).1 = Ok n -> n ∈ names.

Lemma returns_in_bind {A B} (names : list B) (m : M A) (f : A -> M B) :
  (forall a, returns_in names (f a)) -> returns_in names (m ≫= f).
Proof.
  intros Hf w n. unfold mbind, M_bind. destruct (m w) as [[a|e] w']; simpl.
  - apply Hf.
  - discriminate.
Qed.

Lemma returns_in_mret {A} (names : list A) (a : A) : a ∈ names -> returns_in names (mret a).
Proof. intros Ha w n [= <-]. exact Ha. Qed.

Lemma route_after_classification_targets :
  returns_in ["rag_agent"; "sql_agent"; "code_agent"; "research_agent"; "chat_agent";
              "fallback_handler"] _route_after_classification.
Proof.
  unfold _route_after_classification.
  do 7 (apply returns_in_bind; intros ?).
  apply returns_in_bind. intros [intent confidence].
  apply returns_in_bind. intros low.
  destruct low.
  - do 3 (apply returns_in_bind; intros ?).
    repeat case_match; repeat (apply returns_in_bind; intros ?);
      apply returns_in_mret; set_solver.
  - repeat case_match; apply returns_in_mret; set_solver.
Qed.







End ClassificationRouting.

(** X27: the classification edge only ever names one of the five handlers
    or the diagnostic [fallback_handler]: no run is sent to a node that is
    not registered, and none is sent to [graceful_fallback]. *)
Theorem X27_route_after_classification_targets (w : world) (n : string) :
  (_route_after_classification w).1 = Ok n ->
  n ∈ classification_targets /\ n <> "graceful_fallback".
Proof.
  intros Hn. pose proof (route_after_classification_targets w n Hn) as Hin.
  unfold classification_targets.
  rewrite !elem_of_cons, elem_of_nil in Hin. rewrite !elem_of_cons.
  destruct Hin as [->|[->|[->|[->|[->|[->|[]]]]]]]; (split; [tauto | discriminate]).
Qed.

Lemma X27_route_after_classification_targets_witness :
  "sql_agent" ∈ classification_targets /\ "sql_agent" <> "graceful_fallback".
Proof.
  apply (X27_route_after_classification_targets
           (World {[ "user_query" := VStr "count the orders"; "intent" := VStr "sql";
                     "intent_confidence" := VFloat 0.9 ]} [])).
  vm_compute. reflexivity.
Defined.






(** ** The document table *)

Section StorageFacts.
Import Storage.



Lemma same_key_spec u w id d : same_key u w id d = true <-> doc_key d = (u, w, id).
Proof.
  unfold same_key, doc_key. rewrite !andb_true_iff, !String.eqb_eq.
  split; [intros [[-> ->] ->]; done | intros [= -> -> ->]; done].
Qed.

Lemma upsert_keys db u w id path index :
  existsb (same_key u w id) db = true ->
  map doc_key (upsert_document db u w id path index) = map doc_key db.
Proof.
  intros He. unfold upsert_document. rewrite He. clear He.
  induction db as [|d db IH]; simpl; [done|]. rewrite IH. f_equal.
  destruct (same_key u w id d) eqn:E; [|done].
  apply same_key_spec in E. by rewrite E.
Qed.

Lemma existsb_same_key_in db u w id :
  existsb (same_key u w id) db = true <-> (u, w, id) ∈ map doc_key db.
Proof.
  rewrite existsb_exists, list_elem_of_fmap. split.
  - intros (d & Hin & Hk). exists d. apply same_key_spec in Hk.
    split; [done | by apply list_elem_of_In].
  - intros (d & Hk & Hin). exists d. split; [by apply list_elem_of_In|].
    by apply same_key_spec.
Qed.

Lemma upsert_keeps_keys_unique db u w id path index :
  NoDup (map doc_key db) -> NoDup (map doc_key (upsert_document db u w id path index)).
Proof.
  intros Hnd. destruct (existsb (same_key u w id) db) eqn:He.
  - by rewrite upsert_keys.
  - unfold upsert_document. rewrite He. rewrite map_app. simpl.
    apply NoDup_app. split; [done|]. split; [|apply NoDup_singleton].
    intros k Hk Hk'. apply list_elem_of_singleton in Hk'. subst k.
    change ((u, w, id) ∈ map doc_key db) in Hk.
    apply (proj2 (existsb_same_key_in _ _ _ _)) in Hk. congruence.
Qed.

Lemma upsert_stores db u w id path index :
  new_row u w id path index ∈ upsert_document db u w id path index.
Proof.
  unfold upsert_document. destruct (existsb (same_key u w id) db) eqn:He.
  - apply existsb_exists in He as (d & Hin & Hk).
    apply list_elem_of_fmap. exists d. rewrite Hk. split; [done|].
    by apply list_elem_of_In.
  - apply elem_of_app. right. apply list_elem_of_singleton. reflexivity.
Qed.

Lemma upsert_only_version db u w id path index d :
  d ∈ upsert_document db u w id path index -> doc_key d = (u, w, id) ->
  d = new_row u w id path index.
Proof.
  unfold upsert_document. destruct (existsb (same_key u w id) db) eqn:He.
  - intros Hin Hk. apply list_elem_of_fmap in Hin as (d0 & -> & Hin0).
    destruct (same_key u w id d0) eqn:E; [done|].
    apply same_key_spec in Hk. congruence.
  - intros Hin Hk. apply elem_of_app in Hin as [Hin|Hin].
    + exfalso. assert (Hex : existsb (same_key u w id) db = true).
      { apply existsb_exists. exists d. split; [by apply list_elem_of_In|].
        by apply same_key_spec. }
      congruence.
    + by apply list_elem_of_singleton in Hin.
Qed.

Lemma upsert_idempotent db u w id path index :
  upsert_document (upsert_document db u w id path index) u w id path index
  = upsert_document db u w id path index.
Proof.
  assert (Hex : existsb (same_key u w id) (upsert_document db u w id path index) = true).
  { apply existsb_exists. exists (new_row u w id path index). split.
    - apply list_elem_of_In, upsert_stores.
    - apply same_key_spec. reflexivity. }
  unfold upsert_document at 1. rewrite Hex.
  rewrite <- (map_id (upsert_document db u w id path index)) at 2.
  apply map_ext_in. intros d Hin.
  destruct (same_key u w id d) eqn:E; [|done].
  symmetry. apply (upsert_only_version db); [by apply list_elem_of_In|].
  by apply same_key_spec.
Qed.

Lemma upsert_isolated db u w id path index u' w' :
  (u', w') <> (u, w) ->
  list_workspace_documents (upsert_document db u w id path index) u' w'
  = list_workspace_documents db u' w'.
Proof.
  intros Hne. unfold list_workspace_documents. cbv zeta.
  assert (Hrow : forall d, doc_key d = (u, w, id) ->
                           (doc_user d =? u')%string && (doc_workspace d =? w')%string = false).
  { intros d [= Hu Hw _]. apply andb_false_iff.
    destruct (String.eqb_spec (doc_user d) u') as [E1|]; [|by left].
    destruct (String.eqb_spec (doc_workspace d) w') as [E2|]; [|by right].
    exfalso. apply Hne. congruence. }
  assert (Hf : filter (fun d => (doc_user d =? u')%string && (doc_workspace d =? w')%string = true)
                      (upsert_document db u w id path index)
               = filter (fun d => (doc_user d =? u')%string && (doc_workspace d =? w')%string = true)
                        db).
  { assert (Hnew : (u =? u')%string && (w =? w')%string = false)
      by exact (Hrow (new_row u w id path index) eq_refl).
    unfold upsert_document. destruct (existsb (same_key u w id) db) eqn:He.
    - clear He. induction db as [|d db IH]; [done|]. simpl map.
      rewrite !filter_cons, IH.
      destruct (same_key u w id d) eqn:E; [|done].
      apply same_key_spec in E. pose proof (Hrow d E) as Hd.
      cbn [doc_user doc_workspace]. rewrite Hnew, Hd.
      by rewrite !decide_False by discriminate.
    - rewrite filter_app, filter_cons. cbn [doc_user doc_workspace]. rewrite Hnew.
      rewrite decide_False by discriminate.
      by rewrite filter_nil, app_nil_r. }
  by rewrite Hf.
Qed.

Lemma upsert_listed db u w id path index :
  new_row u w id path index
  ∈ (list_workspace_documents (upsert_document db u w id path index) u w).1.
Proof.
  unfold list_workspace_documents. cbv zeta. simpl fst.
  apply list_elem_of_filter. split; [|apply upsert_stores].
  simpl. by rewrite !String.eqb_refl.
Qed.

End StorageFacts.

(** X30: [upsert_document] keeps the primary key unique, stores the row it
    is given as the only row of its key, is idempotent, and is invisible
    from every other user or workspace: what [list_workspace_documents]
    returns for a different (user, workspace) pair is unchanged. *)
Theorem X30_upsert_document_isolated_and_idempotent
    (db : list Storage.document) (u w id path index : string) :
  (NoDup (map Storage.doc_key db) ->
   NoDup (map Storage.doc_key (Storage.upsert_document db u w id path index)))
  /\ Storage.new_row u w id path index
     ∈ (Storage.list_workspace_documents
          (Storage.upsert_document db u w id path index) u w).1
  /\ (forall d, d ∈ Storage.upsert_document db u w id path index ->
                Storage.doc_key d = (u, w, id) -> d = Storage.new_row u w id path index)
  /\ Storage.upsert_document (Storage.upsert_document db u w id path index)
                             u w id path index
     = Storage.upsert_document db u w id path index
  /\ (forall u' w', (u', w') <> (u, w) ->
        Storage.list_workspace_documents
          (Storage.upsert_document db u w id path index) u' w'
        = Storage.list_workspace_documents db u' w').
Proof.
  split; [apply upsert_keeps_keys_unique|].
  split; [apply upsert_listed|].
  split; [apply upsert_only_version|].
  split; [apply upsert_idempotent|].
  intros u' w'. apply upsert_isolated.
Qed.

Lemma X30_upsert_document_isolated_and_idempotent_witness :
  Storage.list_workspace_documents
    (Storage.upsert_document [Storage.new_row "bob" "default" "d1" "/docs/a.txt" "/idx/bob"]
                             "alice" "default" "d1" "/docs/b.txt" "/idx/alice")
    "bob" "default"
  = ([Storage.new_row "bob" "default" "d1" "/docs/a.txt" "/idx/bob"], Some "/idx/bob").
Proof.
  etransitivity.
  - apply (X30_upsert_document_isolated_and_idempotent
             [Storage.new_row "bob" "default" "d1" "/docs/a.txt" "/idx/bob"]
             "alice" "default" "d1" "/docs/b.txt" "/idx/alice").
    discriminate.
  - reflexivity.
Defined.


(** ** The SQL handler *)

Section SqlAgentFacts.
Context `{Backends} `{Regex} `{SqlParser} `{SqlAgent.SqlAgentEnv}.
Import SqlAgent.

Lemma modifies_state_read ks : modifies ks (fun w => (Ok (w_state w), w)).
Proof. by apply modifies_pure. Qed.

Lemma modifies_if {A} ks (b : bool) (m1 m2 : M A) :
  modifies ks m1 -> modifies ks m2 -> modifies ks (if b then m1 else m2).
Proof. by destruct b. Qed.

(** The keys the [try] block of [execute] may write. *)
Definition try_keys : list string :=
  [ "execution_status"; "execution_result"; "final_answer"; "confidence_score";
    "messages"; "generated_sql"; "sql_validation_result"; "approval_required";
    "approval_reason"; "risk_level"; "model_used"; "fallback_reason"; "metadata" ].

Ltac try_keys_step :=
  first [ apply modifies_emit | apply modifies_lift | apply modifies_mret
        | apply modifies_get | apply modifies_get_or | apply modifies_get_item
        | apply modifies_raise | apply modifies_state_read
        | apply modifies_set; unfold try_keys; in_keys
        | apply modifies_append_to; unfold try_keys; in_keys ].

Lemma execute_sql_modifies sql : modifies try_keys (execute_sql sql).
Proof.
  unfold execute_sql. repeat (apply modifies_bind; [|intros ?]); try try_keys_step.
  apply modifies_if; try_keys_step.
Qed.

Lemma generate_sql_modifies self : modifies try_keys (generate_sql self).
Proof.
  unfold generate_sql. repeat (apply modifies_bind; [|intros ?]); try try_keys_step.
  eapply modifies_weaken; [|apply invoke_modifies].
  intros k. unfold try_keys. rewrite !elem_of_cons, elem_of_nil. tauto.
Qed.

(** The [try] block of [execute]. *)
Definition try_block (self : SQLAgent) : M unit :=
  approved ← get "approved";
  generated ← get "generated_sql";
  if truthy_opt approved && truthy_opt generated then
    sql ← get_item "generated_sql";
    set "execution_status" (VStr "executing");;
    result ← execute_sql sql;
    set "execution_result" (VStr result);;
    set "execution_status" (VStr "completed");;
    let answer :=
      "Query executed successfully (Approved):" +:+ nl +:+ nl +:+ "```sql" +:+ nl
      +:+ fmt sql +:+ nl +:+ "```" +:+ nl +:+ nl +:+ "Results:" +:+ nl +:+ result in
    set "final_answer" (VStr answer);;
    set "confidence_score" (VFloat 0.95);;
    append_to "messages"
      (assistant_message answer
         {[ "agent" := VStr "sql"; "sql" := sql; "approved" := VBool true ]})
  else
    sql ← generate_sql self;
    set "generated_sql" (VStr sql);;
    let validation := validate_sql sql in
    set "sql_validation_result" (validation_dict validation);;
    if requires_approval validation then
      set "approval_required" (VBool true);;
      set "approval_reason"
          (VStr ("SQL validation issues: " +:+ join ", " (issues validation)));;
      set "risk_level" (VStr (risk_level validation));;
      set "execution_status" (VStr "requires_approval")
    else
      approval_required ← get "approval_required";
      approved ← get_or "approved" (VBool false);
      if truthy_opt approval_required && negb (truthy approved) then
        set "execution_status" (VStr "pending")
      else
        set "execution_status" (VStr "executing");;
        result ← execute_sql (VStr sql);
        set "execution_result" (VStr result);;
        set "execution_status" (VStr "completed");;
        let answer :=
          "Query executed successfully:" +:+ nl +:+ nl +:+ "```sql" +:+ nl
          +:+ sql +:+ nl +:+ "```" +:+ nl +:+ nl +:+ "Results:" +:+ nl +:+ result in
        set "final_answer" (VStr answer);;
        set "confidence_score" (VFloat (if is_safe validation then 0.9 else 0.7));;
        append_to "messages"
          (assistant_message answer {[ "agent" := VStr "sql"; "sql" := VStr sql ]}).

Lemma execute_unfold self :
  execute self
  = (update normalize_state;;
     update ensure_metadata;;
     update ensure_errors;;
     update ensure_intent;;
     retry_count ← get_or "retry_count" (VInt 0);
     try_except (try_block self) (on_exception self retry_count)).
Proof. reflexivity. Qed.

Lemma try_block_modifies self : modifies try_keys (try_block self).
Proof.
  unfold try_block. cbv zeta.
  apply modifies_bind; [try_keys_step|intros approved].
  apply modifies_bind; [try_keys_step|intros generated].
  apply modifies_if.
  - repeat first [ apply execute_sql_modifies | try_keys_step
                 | apply modifies_bind; [|intros ?] ].
  - apply modifies_bind; [apply generate_sql_modifies|intros sql].
    apply modifies_bind; [try_keys_step|intros _].
    apply modifies_bind; [try_keys_step|intros _].
    apply modifies_if.
    + repeat first [ try_keys_step | apply modifies_bind; [|intros ?] ].
    + apply modifies_bind; [try_keys_step|intros ar].
      apply modifies_bind; [try_keys_step|intros ap].
      apply modifies_if; [try_keys_step|].
      repeat first [ apply execute_sql_modifies | try_keys_step
                   | apply modifies_bind; [|intros ?] ].
Qed.

Lemma strings_of_ok (l : list value) :
  Forall (fun v => is_str v = true) l -> exists ss, strings_of l = Ok ss.
Proof.
  induction 1 as [|v l Hv Hl [ss IH]]; simpl; [by eexists|].
  destruct v; try discriminate. rewrite IH. by eexists.
Qed.

Lemma py_lt_numeric (a : value) (x : Q) (m : Z) :
  as_num a = Some x -> py_lt a (VInt m) = Ok (Qlt_bool x (inject_Z m)).
Proof. destruct a; simpl; try discriminate; by intros [= <-]. Qed.

Lemma py_succ_numeric (a : value) (x : Q) :
  as_num a = Some x -> exists v, py_succ a = Ok v.
Proof. destruct a; simpl; try discriminate; by eexists. Qed.

(** With a numeric retry count and an error list of strings the [except]
    block returns. *)
Lemma on_exception_returns self rc x e w l :
  as_num rc = Some x ->
  w_state w !! "errors" = Some (VList l) ->
  Forall (fun v => is_str v = true) l ->
  post (on_exception self rc e) w (fun r w' =>
    r = Ok tt /\ w_log w' = w_log w
    /\ w_state w' !! "execution_status" = Some (VStr "failed")
    /\ w_state w' !! "errors" = Some (VList (l ++ [VStr (exn_msg e)]))).
Proof.
  intros Hrc Herr Hstr. unfold on_exception.
  apply post_bind, post_update. cbn [w_state w_log].
  rewrite ensure_errors_id by (by exists l).
  apply post_bind. eapply post_append_to; [exact Herr|]. cbn [w_state w_log].
  apply post_bind, post_lift. rewrite (py_lt_numeric _ _ _ Hrc).
  destruct (Qlt_bool x (inject_Z (max_retries self))).
  - destruct (py_succ_numeric _ _ Hrc) as [v Hv].
    apply post_bind, post_lift. rewrite Hv.
    apply post_bind, post_set. apply post_bind, post_set. apply post_set.
    cbn [w_state w_log]. split; [done|]. split; [done|].
    split; [by rewrite lookup_insert_ne, lookup_insert_eq|].
    by rewrite !lookup_insert_ne, lookup_insert_eq by done.
  - apply post_bind, post_set. apply post_bind, post_get_or. cbn [w_state w_log].
    rewrite lookup_insert_ne, lookup_insert_eq by done. cbn [default from_option id].
    assert (Hall : Forall (fun v => is_str v = true) (l ++ [VStr (exn_msg e)])).
    { apply Forall_app. split; [done|]. by apply Forall_singleton. }
    destruct (strings_of_ok _ Hall) as [ss Hss].
    apply post_bind, post_lift. unfold join_list. rewrite Hss.
    apply post_set. cbn [w_state w_log]. split; [done|]. split; [done|].
    split; [by rewrite lookup_insert_ne, lookup_insert_eq|].
    by rewrite !lookup_insert_ne, lookup_insert_eq by done.
Qed.

End SqlAgentFacts.

#[local] Opaque setdefault reset_unless_list reset_unless_dict set_is_guest.

Lemma reset_unless_list_resets k (d : dict) v :
  d !! k = Some v -> is_list v = false -> reset_unless_list k d !! k = Some (VList []).
Proof.
  #[local] Transparent reset_unless_list.
  intros Hk Hv. unfold reset_unless_list. rewrite Hk, Hv. apply lookup_insert_eq.
  #[local] Opaque reset_unless_list.
Qed.

Lemma normalize_state_errors_reset (s : dict) (v : value) :
  s !! "errors" = Some v -> is_list v = false ->
  normalize_state s !! "errors" = Some (VList []).
Proof.
  intros Hs Hv. unfold normalize_state. cbv zeta.
  repeat first
    [ eapply reset_unless_list_resets; [|exact Hv]
    | apply setdefault_lookup_old
    | apply set_is_guest_lookup_old
    | apply reset_unless_list_lookup_old; [|intros; discriminate]
    | apply reset_unless_dict_lookup_old; [|intros; discriminate] ].
  exact Hs.
Qed.

Lemma normalize_state_errors_absent (s : dict) :
  s !! "errors" = None -> normalize_state s !! "errors" = Some (VList []).
Proof.
  intros Hs. unfold normalize_state. cbv zeta.
  repeat first
    [ apply setdefault_absent
    | apply setdefault_lookup_old
    | apply reset_unless_list_lookup_old; [|intros; reflexivity]
    | apply reset_unless_dict_lookup_old; [|intros; discriminate] ].
  repeat first
    [ rewrite setdefault_lookup_ne by discriminate
    | rewrite set_is_guest_lookup_ne by discriminate
    | rewrite reset_unless_list_lookup_ne by discriminate
    | rewrite reset_unless_dict_lookup_ne by discriminate ].
  exact Hs.
Qed.

Lemma normalize_state_approval_required (s : dict) :
  normalize_state s !! "approval_required"
  = Some (default (VBool false) (s !! "approval_required")).
Proof.
  destruct (s !! "approval_required") as [v|] eqn:E; simpl.
  - apply normalize_state_lookup_old; [done | not_a_container_field ..].
  - normalize_default.
Qed.

Lemma normalize_state_generated_sql (s : dict) :
  normalize_state s !! "generated_sql" = Some (default VNone (s !! "generated_sql")).
Proof.
  destruct (s !! "generated_sql") as [v|] eqn:E; simpl.
  - apply normalize_state_lookup_old; [done | not_a_container_field ..].
  - normalize_default.
Qed.

#[local] Transparent setdefault reset_unless_list reset_unless_dict set_is_guest.

(** The error list after normalization holds strings when the one that
    came in did. *)
Lemma normalize_state_errors_strings (s : dict) :
  (forall l, s !! "errors" = Some (VList l) -> Forall (fun v => is_str v = true) l) ->
  exists l, normalize_state s !! "errors" = Some (VList l)
            /\ Forall (fun v => is_str v = true) l.
Proof.
  intros Hs. destruct (s !! "errors") as [v|] eqn:E.
  - destruct (is_list v) eqn:Hl.
    + destruct v; try discriminate. exists l. split; [|by apply Hs].
      apply normalize_state_lookup_old; [done | done | not_a_container_field].
    + exists []. split; [by eapply normalize_state_errors_reset | apply Forall_nil_2].
  - exists []. split; [by apply normalize_state_errors_absent | apply Forall_nil_2].
Qed.

Section SqlAgentRuns.
Context `{Backends} `{Regex} `{SqlParser} `{SqlAgent.SqlAgentEnv}.
Import SqlAgent.

Lemma execute_returns self w x :
  as_num (default (VInt 0) (w_state w !! "retry_count")) = Some x ->
  (forall l, w_state w !! "errors" = Some (VList l) ->
             Forall (fun v => is_str v = true) l) ->
  post (execute self) w (fun r w' => r = Ok tt).
Proof.
  intros Hrc Herrs. rewrite execute_unfold.
  apply post_bind, post_update. apply post_bind, post_update.
  apply post_bind, post_update. apply post_bind, post_update.
  cbn [w_state w_log].
  apply post_bind, post_get_or. cbn [w_state].
  rewrite ensure_all_lookup by done. rewrite normalize_state_retry_count.
  cbn [default from_option id].
  destruct (normalize_state_errors_strings _ Herrs) as (l & Hl & Hstr).
  pose proof (ensure_all_errors _ _ Hl) as Hl1.
  set (w1 := World (ensure_intent (ensure_errors (ensure_metadata (normalize_state (w_state w)))))
                   (w_log w)) in *.
  apply post_try_except.
  apply (post_mono _ _ (fun r w' => w_state w' !! "errors" = Some (VList l))).
  { unfold post. rewrite (try_block_modifies self w1 "errors"); [exact Hl1|].
    unfold try_keys. rewrite !not_elem_of_cons, elem_of_nil.
    repeat split; try discriminate. tauto. }
  intros [[]|e] w' Hw'; [done|].
  eapply post_mono; [apply (on_exception_returns _ _ _ _ _ _ Hrc Hw' Hstr)|].
  by intros r w'' [-> _].
Qed.

Lemma generate_sql_ok self w msgs text :
  sql_prompt (w_state w) = Ok msgs ->
  primary_invoke msgs (_temperature self) = Ok (Response (Some (VStr text))) ->
  generate_sql self w
  = (Ok (strip (drop_fences text)),
     World (<["fallback_reason" := VNone]>
              (<["model_used" := VStr (primary_model (llm_router self))]> (w_state w)))
           (w_log w ++ [EvPrimary])).
Proof.
  intros Hp Hi. unfold generate_sql.
  unfold mbind at 1. unfold M_bind. cbn [w_state].
  unfold mbind at 1. unfold M_bind. unfold lift at 1. rewrite Hp.
  unfold mbind at 1. unfold M_bind.
  rewrite (invoke_primary_ok _ _ _ _ _ Hi). reflexivity.
Qed.

End SqlAgentRuns.

Section SqlAgentFirstPass.
Context `{Backends} `{Regex} `{SqlParser} `{SqlAgent.SqlAgentEnv}.
Import SqlAgent.

(** What the mock executor answers in the state [s]. *)
Definition mock_result (s : dict) (sql : value) : string :=
  if negb (truthy_opt (s !! "db_connection"))
  then "Error: No database connection configured."
  else "[Mock] Executed query: " +:+ fmt sql +:+ nl
       +:+ "[In production, this would execute against the database]".

Lemma execute_sql_run sql w :
  execute_sql sql w
  = (Ok (mock_result (w_state w) sql),
     World (w_state w) (w_log w ++ [EvExecuteSql (fmt sql)])).
Proof.
  unfold execute_sql, mock_result, emit, get, mbind, M_bind, mret, M_ret. cbn [w_state w_log].
  by destruct (negb _).
Qed.

Lemma post_run {A} (m : M A) w a w' (Q : result A -> world -> Prop) :
  m w = (Ok a, w') -> Q (Ok a) w' -> post m w Q.
Proof. intros Hm HQ. unfold post. by rewrite Hm. Qed.

Lemma post_get_item k v w (Q : result value -> world -> Prop) :
  w_state w !! k = Some v -> Q (Ok v) w -> post (get_item k) w Q.
Proof. intros Hk HQ. unfold post, get_item. by rewrite Hk. Qed.

Lemma execute_first_pass self w text ms :
  truthy (default (VBool false) (w_state w !! "approved")) = false ->
  truthy (default (VBool false) (w_state w !! "approval_required")) = false ->
  (forall st, exists msgs, sql_prompt st = Ok msgs) ->
  (forall msgs t, primary_invoke msgs t = Ok (Response (Some (VStr text)))) ->
  requires_approval (validate_sql (strip (drop_fences text))) = false ->
  normalize_state (w_state w) !! "messages" = Some (VList ms) ->
  let sql := strip (drop_fences text) in
  post (execute self) w (fun r w' =>
    r = Ok tt
    /\ w_log w' = w_log w ++ [EvPrimary; EvExecuteSql sql]
    /\ w_state w' !! "execution_status" = Some (VStr "completed")
    /\ w_state w' !! "generated_sql" = Some (VStr sql)
    /\ w_state w' !! "confidence_score" = Some (VFloat 0.9)
    /\ exists answer,
         w_state w' !! "final_answer" = Some (VStr answer)
         /\ w_state w' !! "messages"
            = Some (VList (ms ++ [assistant_message answer
                                    {[ "agent" := VStr "sql"; "sql" := VStr sql ]}]))).
Proof.
  intros Ha Har Hp Hi Hv Hms sql. rewrite execute_unfold.
  apply post_bind, post_update. apply post_bind, post_update.
  apply post_bind, post_update. apply post_bind, post_update.
  cbn [w_state w_log].
  apply post_bind, post_get_or. cbn [w_state].
  remember (ensure_intent (ensure_errors (ensure_metadata (normalize_state (w_state w)))))
    as s1 eqn:Es1.
  assert (Hlook : forall k, k <> "metadata" -> k <> "errors" -> k <> "intent" ->
                            k <> "intent_confidence" ->
                            s1 !! k = normalize_state (w_state w) !! k).
  { intros k ? ? ? ?. subst s1. by apply ensure_all_lookup. }
  apply post_try_except. unfold try_block. cbv zeta.
  apply post_bind, post_get. apply post_bind, post_get. cbn [w_state].
  rewrite (Hlook "approved") by done. rewrite normalize_state_approved.
  cbn [truthy_opt]. rewrite Ha. cbn [andb].
  destruct (Hp s1) as [msgs Hmsgs].
  apply post_bind.
  eapply post_run; [apply (generate_sql_ok self (World s1 (w_log w)) msgs text); auto|].
  apply post_bind, post_set. apply post_bind, post_set.
  fold sql. unfold validate_sql in *. fold sql in Hv. rewrite Hv.
  apply post_bind, post_get. apply post_bind, post_get_or. cbn [w_state w_log].
  rewrite !lookup_insert_ne by done.
  rewrite (Hlook "approval_required"), (Hlook "approved") by done.
  rewrite normalize_state_approval_required, normalize_state_approved.
  cbn [truthy_opt default from_option id]. rewrite Har. cbn [andb].
  apply post_bind, post_set.
  apply post_bind. eapply post_run; [apply execute_sql_run|].
  apply post_bind, post_set. apply post_bind, post_set.
  apply post_bind, post_set. apply post_bind, post_set.
  cbn [w_state w_log fmt].
  assert (Hsafe : is_safe (SQLValidator.validate sql) = true).
  { rewrite validate_is_safe. by rewrite Hv. }
  rewrite Hsafe.
  eapply post_append_to.
  { cbn [w_state]. rewrite !lookup_insert_ne by done.
    rewrite (Hlook "messages") by done. exact Hms. }
  cbn [w_state w_log]. split; [done|].
  split; [by rewrite <- !app_assoc|].
  split; [by rewrite !lookup_insert_ne, lookup_insert_eq by done|].
  split; [by rewrite !lookup_insert_ne, lookup_insert_eq by done|].
  split; [by rewrite !lookup_insert_ne, lookup_insert_eq by done|].
  eexists. split; [by rewrite !lookup_insert_ne, lookup_insert_eq by done|].
  by rewrite lookup_insert_eq.
Qed.

End SqlAgentFirstPass.


(** X14: the SQL handler keeps its exceptions to itself: from a state
    whose retry count is a number and whose error list, if it is a list,
    holds strings, [execute] always returns a state, whatever the prompt
    builder, the model backends, the regex engine and the tokenizer do. *)
Theorem X14_sql_execute_never_raises
    `{Backends} `{Regex} `{SqlParser} `{SqlAgent.SqlAgentEnv}
    (self : SqlAgent.SQLAgent) (w : world) (x : Q) :
  as_num (default (VInt 0) (w_state w !! "retry_count")) = Some x ->
  (forall l, w_state w !! "errors" = Some (VList l) ->
             Forall (fun v => is_str v = true) l) ->
  exists w', SqlAgent.execute self w = (Ok tt, w').
Proof.
  intros Hrc Herrs. pose proof (execute_returns self w x Hrc Herrs) as Hpost.
  unfold post in Hpost. destruct (SqlAgent.execute self w) as [r w'].
  simpl in Hpost. subst r. by exists w'.
Qed.

Lemma X14_sql_execute_never_raises_witness :
  exists w', @SqlAgent.execute broken_primary silent_regex no_keywords plain_sql_env
               SqlAgent.default_agent
               (World {[ "user_query" := VStr "count the orders";
                         "errors" := VList [VStr "earlier failure"] ]} [])
             = (Ok tt, w').
Proof.
  apply (@X14_sql_execute_never_raises broken_primary silent_regex no_keywords plain_sql_env
           SqlAgent.default_agent
           (World {[ "user_query" := VStr "count the orders";
                     "errors" := VList [VStr "earlier failure"] ]} [])
           (inject_Z 0)).
  - reflexivity.
  - intros l Hl. vm_compute in Hl. injection Hl as <-.
    apply Forall_cons_2; [reflexivity | apply Forall_nil_2].
Defined.

(** X17: a first pass that is not gated runs the query exactly once: when
    the run is not approved in advance, the model answers, and the
    validator does not ask for approval, [execute] calls the primary
    backend and then the executor once, stores the generated query, marks
    the run completed, appends one assistant message carrying the answer,
    and scores it 0.9 (the lower score of the source is never given,
    because a query that needs no approval is always safe). *)
Theorem X17_sql_execute_first_pass
    `{Backends} `{Regex} `{SqlParser} `{SqlAgent.SqlAgentEnv}
    (self : SqlAgent.SQLAgent) (w : world) (text : string) (ms : list value) :
  truthy (default (VBool false) (w_state w !! "approved")) = false ->
  truthy (default (VBool false) (w_state w !! "approval_required")) = false ->
  (forall st, exists msgs, SqlAgent.sql_prompt st = Ok msgs) ->
  (forall msgs t, primary_invoke msgs t = Ok (Response (Some (VStr text)))) ->
  requires_approval (SqlAgent.validate_sql (strip (SqlAgent.drop_fences text))) = false ->
  normalize_state (w_state w) !! "messages" = Some (VList ms) ->
  exists w' answer,
    SqlAgent.execute self w = (Ok tt, w')
    /\ w_log w' = w_log w ++ [EvPrimary; EvExecuteSql (strip (SqlAgent.drop_fences text))]
    /\ w_state w' !! "execution_status" = Some (VStr "completed")
    /\ w_state w' !! "generated_sql" = Some (VStr (strip (SqlAgent.drop_fences text)))
    /\ w_state w' !! "confidence_score" = Some (VFloat 0.9)
    /\ w_state w' !! "final_answer" = Some (VStr answer)
    /\ w_state w' !! "messages"
       = Some (VList (ms ++ [SqlAgent.assistant_message answer
                               {[ "agent" := VStr "sql";
                                  "sql" := VStr (strip (SqlAgent.drop_fences text)) ]}])).
Proof.
  intros Ha Har Hp Hi Hv Hms.
  pose proof (execute_first_pass self w text ms Ha Har Hp Hi Hv Hms) as Hpost.
  cbv zeta in Hpost. unfold post in Hpost.
  destruct (SqlAgent.execute self w) as [r w'].
  simpl in Hpost. destruct Hpost as (-> & Hlog & Hst & Hgen & Hconf & answer & Hans & Hmsg).
  exists w', answer. split; [reflexivity|]. split; [exact Hlog|]. split; [exact Hst|].
  split; [exact Hgen|]. split; [exact Hconf|]. split; [exact Hans | exact Hmsg].
Qed.

Lemma X17_sql_execute_first_pass_witness :
  exists w' answer,
    @SqlAgent.execute (answering "SELECT 1") (only_pattern "\bSELECT\b") no_keywords
       plain_sql_env SqlAgent.default_agent (asking "give me one")
    = (Ok tt, w')
    /\ w_log w' = [] ++ [EvPrimary; EvExecuteSql "SELECT 1"]
    /\ w_state w' !! "execution_status" = Some (VStr "completed")
    /\ w_state w' !! "generated_sql" = Some (VStr "SELECT 1")
    /\ w_state w' !! "confidence_score" = Some (VFloat 0.9)
    /\ w_state w' !! "final_answer" = Some (VStr answer)
    /\ w_state w' !! "messages"
       = Some (VList ([] ++ [SqlAgent.assistant_message answer
                               {[ "agent" := VStr "sql"; "sql" := VStr "SELECT 1" ]}])).
Proof.
  apply (@X17_sql_execute_first_pass (answering "SELECT 1") (only_pattern "\bSELECT\b")
           no_keywords plain_sql_env SqlAgent.default_agent (asking "give me one")
           "SELECT 1" []).
  - vm_compute. reflexivity.
  - vm_compute. reflexivity.
  - intros st. eexists. reflexivity.
  - reflexivity.
  - vm_compute. reflexivity.
  - vm_compute. reflexivity.
Defined.
